(** * plant-disease-detection: the glue logic of [classify_detect13.py]

    A shallow embedding of the Flask application: the classifier client
    [classify_with_gemini], the result interpreter [get_disease_info], the
    recommendation generator [get_recommendations] and the [/analyze] route.

    Conventions.
    - A Python [str] is a [string]: the bytes of its UTF-8 encoding.  The
      methods [str.lower], [str.strip] and [str.splitlines] are given on the
      ASCII range, where they are exactly CPython's; bytes from 0x80 on are
      carried along unchanged (the Unicode case table and the Unicode-only
      white space are not part of this development).
    - Exceptions are values: a computation returns [Ok a] or [Raise msg],
      and [try_catch] is Python's [try: ... except Exception].
    - What the outside world does in one request (PIL, the Gemini SDK, the
      file system, OpenCV, [uuid4]) is read from an [Env] record; every call
      to the outside that the route makes is appended to a trace of events.
    - [print] statements are not modelled. *)

From Stdlib Require Import Bool Arith ZArith List Ascii String Lia Setoid.
Import ListNotations.
Open Scope string_scope.

(** ** Python string methods *)

Module PyStr.

(** [c.lower()] for one character of the ASCII range. *)
Definition lower_char (c : ascii) : ascii :=
  let n := nat_of_ascii c in
  if ((65 <=? n) && (n <=? 90))%nat then ascii_of_nat (n + 32) else c.

(** [s.lower()] *)
Fixpoint lower (s : string) : string :=
  match s with
  | EmptyString => EmptyString
  | String c s' => String (lower_char c) (lower s')
  end.

(** [c.isspace()]: TAB, LF, VT, FF, CR, FS, GS, RS, US and the space. *)
Definition isspace (c : ascii) : bool :=
  let n := nat_of_ascii c in
  (((9 <=? n) && (n <=? 13)) || ((28 <=? n) && (n <=? 31)) || (n =? 32))%nat.

Fixpoint lstrip (s : string) : string :=
  match s with
  | EmptyString => EmptyString
  | String c s' => if isspace c then lstrip s' else s
  end.

Fixpoint rstrip (s : string) : string :=
  match s with
  | EmptyString => EmptyString
  | String c s' =>
      match rstrip s' with
      | EmptyString => if isspace c then EmptyString else String c EmptyString
      | r => String c r
      end
  end.

(** [s.strip()] *)
Definition strip (s : string) : string := rstrip (lstrip s).

(** [sub in s] *)
Fixpoint contains (sub s : string) : bool :=
  prefix sub s ||
  match s with
  | EmptyString => false
  | String _ s' => contains sub s'
  end.

(** [s.find(sub) != -1] *)
Definition found (sub s : string) : bool := contains sub s.

(** [s.split(sep, 1)] for a one-character separator: the text before the
    first [sep] and the text after it, or [s] alone when there is none. *)
Fixpoint split_once (sep : ascii) (s : string) : list string :=
  match s with
  | EmptyString => [EmptyString]
  | String c s' =>
      if Ascii.eqb c sep then [EmptyString; s']
      else match split_once sep s' with
           | a :: rest => String c a :: rest
           | [] => [s]
           end
  end.

(** The line boundaries of [str.splitlines]: LF, VT, FF, CR, FS, GS, RS. *)
Definition islinebreak (c : ascii) : bool :=
  let n := nat_of_ascii c in
  (((10 <=? n) && (n <=? 13)) || ((28 <=? n) && (n <=? 30)))%nat.

(** [s.splitlines()]: the lines without their boundaries; CR LF is one
    boundary, and a boundary at the very end opens no further line. *)
Fixpoint splitlines (s : string) : list string :=
  match s with
  | EmptyString => []
  | String c s' =>
      if islinebreak c then
        match s' with
        | String c' s'' =>
            if Ascii.eqb c "013" && Ascii.eqb c' "010"
            then EmptyString :: splitlines s''
            else EmptyString :: splitlines s'
        | EmptyString => [EmptyString]
        end
      else
        match splitlines s' with
        | l :: ls => String c l :: ls
        | [] => [String c EmptyString]
        end
  end.

End PyStr.

(** ** Exceptions and the trace of calls to the outside *)

(** A value, or an exception with its message ([str(e)]). *)
Inductive result (A : Type) : Type :=
| Ok (a : A)
| Raise (msg : string).
Arguments Ok {A} a.
Arguments Raise {A} msg.

(** The calls the application makes to its collaborators. *)
Inductive event : Type :=
| File_save (path : string)
| Path_exists (path : string)
| PIL_open (path : string)
| Gemini_generate_content (path : string)
| Cv2_import
| Cv2_imread (path : string)
| Cv2_rectangle (p1 p2 : Z * Z)
| Cv2_getTextSize (text : string)
| Cv2_putText (text : string) (org : Z * Z)
| Cv2_imwrite (path : string).

(** A computation: its outcome and the calls it made, oldest first. *)
Definition M (A : Type) : Type := (result A * list event)%type.

Definition ret {A} (a : A) : M A := (Ok a, []).

(** [raise Exception(msg)] *)
Definition raise {A} (msg : string) : M A := (Raise msg, []).

(** Sequencing: an exception in [m] skips [k]; the calls add up. *)
Definition bind {A B} (m : M A) (k : A -> M B) : M B :=
  match m with
  | (Ok a, t) => let (r, t') := k a in (r, (t ++ t')%list)
  | (Raise msg, t) => (Raise msg, t)
  end.

(** [try: body except Exception as e: handler e] *)
Definition try_catch {A} (body : M A) (handler : string -> M A) : M A :=
  match body with
  | (Ok a, t) => (Ok a, t)
  | (Raise msg, t) => let (r, t') := handler msg in (r, (t ++ t')%list)
  end.

(** One call to the outside, with the outcome the environment gives it. *)
Definition call {A} (ev : event) (outcome : result A) : M A := (outcome, [ev]).

(** A computation that makes no call. *)
Definition lift {A} (r : result A) : M A := (r, []).

Notation "x <- c1 ;; c2" := (bind c1 (fun x => c2))
  (at level 100, c1 at next level, right associativity).
Notation "' pat <- c1 ;; c2" := (bind c1 (fun x => match x with pat => c2 end))
  (at level 100, pat pattern, c1 at next level, right associativity).

(** The value or the exception a computation ends with. *)
Definition outcome {A} (m : M A) : result A := fst m.

(** ** JSON values, requests and responses *)

(** What [jsonify] and [json.dumps] are given.  A [dict] keeps its keys in
    insertion order; [JFloat z] is [float(z)] for an integer [z]. *)
#[local] Unset Elimination Schemes.
Inductive json : Type :=
| JNull
| JStr (s : string)
| JFloat (z : Z)
| JList (items : list json)
| JDict (fields : list (string * json)).
#[local] Set Elimination Schemes.

Fixpoint assoc_get {V : Type} (key : string) (l : list (string * V)) : option V :=
  match l with
  | [] => None
  | (k, v) :: l' => if k =? key then Some v else assoc_get key l'
  end.

(** [d[key]] on a JSON dict, [None] when the key is absent. *)
Definition dict_get (key : string) (d : json) : option json :=
  match d with
  | JDict fields => assoc_get key fields
  | _ => None
  end.

(** werkzeug's [FileStorage]. *)
Record FileStorage : Type := {
  filename : string;
  content_type : string;
  stream : string
}.

(** [bool(file)] is [bool(file.filename)]. *)
Definition file_bool (file : FileStorage) : bool := negb (filename file =? "").

(** The parts of Flask's [request] that the route reads.  The three maps
    are multi-dicts: the first entry of a key is the one returned. *)
Record Request : Type := {
  files : list (string * FileStorage);
  args : list (string * string);
  headers : list (string * string)
}.

(** [request.headers.get(name, default)]: header names compare without case. *)
Fixpoint headers_get (name default : string) (l : list (string * string)) : string :=
  match l with
  | [] => default
  | (k, v) :: l' =>
      if PyStr.lower k =? PyStr.lower name then v else headers_get name default l'
  end.

Inductive Body : Type :=
| JsonBody (document : json)
| HtmlBody (html : string).

(** What a view function returns: [jsonify(d), code], or a body alone (200). *)
Record Response : Type := {
  status_code : Z;
  body : Body
}.

(** [x or default] on strings *)
Definition str_or (x default : string) : string :=
  if x =? "" then default else x.

(** [a.endswith("/")] *)
Fixpoint ends_with_slash (a : string) : bool :=
  match a with
  | EmptyString => false
  | String c EmptyString => Ascii.eqb c "/"
  | String _ a' => ends_with_slash a'
  end.

(** [posixpath.join(a, b)] *)
Definition os_path_join (a b : string) : string :=
  if prefix "/" b then b
  else if (a =? "") || ends_with_slash a then a ++ b
  else a ++ "/" ++ b.

(** ** Start-up configuration *)

Definition UPLOAD_FOLDER : string := "uploads".

(** [GOOGLE_API_KEY] is a literal of the module (blank in the published
    source) and is kept as a field, so that both values of the flag are
    covered.  [GEMINI_AVAILABLE] tells whether [google.genai] imported, and
    [Client_constructs] whether [genai.Client(api_key=...)] returned. *)
Record Config : Type := {
  GOOGLE_API_KEY : string;
  GEMINI_AVAILABLE : bool;
  Client_constructs : bool
}.

(** The process-wide flag, set once when the module is loaded. *)
Definition gemini_ready (cfg : Config) : bool :=
  if negb (GOOGLE_API_KEY cfg =? "") && GEMINI_AVAILABLE cfg
  then Client_constructs cfg
  else false.

(** What the collaborators answer during one request.
    - [uuid4]: the text of [uuid.uuid4()];
    - [file_save path content]: [file.save(path)];
    - [path_exists path]: [os.path.exists(path)] after the save;
    - [image_open path]: [Image.open(path).convert("RGB")];
    - [generate_content path]: the [text] of the model's response to the
      prompt and the image, [None] when the response has no text;
    - [cv2_import]: [import cv2];
    - [cv2_imread path]: the height and width of the image read, [None]
      when OpenCV returns no image;
    - [cv2_rectangle], [cv2_getTextSize] (width, height, baseline),
      [cv2_putText], [cv2_imwrite]: the drawing calls, whose return values
      other than the text size the route does not look at. *)
Record Env : Type := {
  uuid4 : string;
  file_save : string -> string -> result unit;
  path_exists : string -> bool;
  image_open : string -> result unit;
  generate_content : string -> result (option string);
  cv2_import : result unit;
  cv2_imread : string -> result (option (Z * Z));
  cv2_rectangle : Z * Z -> Z * Z -> result unit;
  cv2_getTextSize : string -> result (Z * Z * Z);
  cv2_putText : string -> Z * Z -> result unit;
  cv2_imwrite : string -> result unit
}.

(** ** The result interpreter and the recommendation generator *)

(** The dictionary that [get_disease_info] builds, with its four keys. *)
Record DiseaseInfo : Type := {
  plant_type : string;
  disease_name : string;
  severity_level : string;
  confidence : string
}.

(** [disease_info['disease_name']], for the places where [disease_name] is
    also the name of a local variable of the route. *)
Definition disease_name_of (disease_info : DiseaseInfo) : string :=
  disease_name disease_info.

(** [any(word in text for word in words)] *)
Definition any_in (words : list string) (text : string) : bool :=
  existsb (fun word => PyStr.contains word text) words.

(** The interpreter; [ready] is the value of the global [gemini_ready].
    [parts[0]] and [parts[1]] raise when the list is too short. *)
Definition get_disease_info (ready : bool) (disease_classification : string)
  : result DiseaseInfo :=
  if PyStr.contains ":" disease_classification then
    match PyStr.split_once ":" disease_classification with
    | part0 :: part1 :: _ =>
        let plant := PyStr.strip part0 in
        let disease := PyStr.strip part1 in
        let severity :=
          if PyStr.lower disease =? "healthy" then "Healthy"
          else if any_in ["blight"; "rot"; "wilt"; "canker"] (PyStr.lower disease)
          then "High"
          else if any_in ["spot"; "rust"; "mildew"] (PyStr.lower disease)
          then "Medium"
          else "Low to Medium" in
        Ok {| plant_type := plant;
              disease_name := disease;
              severity_level := severity;
              confidence := if ready then "High" else "Low" |}
    | _ => Raise "list index out of range"
    end
  else
    Ok {| plant_type := "Unknown";
          disease_name := disease_classification;
          severity_level := "Unknown";
          confidence := "Low" |}.

(** The five advice lists, with the characters of the source file. *)
Definition healthy_advice : list string :=
  [ "üåø Great! Your plant appears to be healthy.";
    "üíß Continue regular watering and maintenance schedule.";
    "‚òÄÔ∏è Ensure adequate sunlight and proper ventilation.";
    "üîç Monitor regularly for any changes in appearance." ].

Definition blight_advice : list string :=
  [ "üö® Immediate action required - this is a serious fungal disease.";
    "‚úÇÔ∏è Remove and destroy affected plant parts immediately.";
    "üíä Apply appropriate fungicide treatment.";
    "üå¨Ô∏è Improve air circulation around the plant.";
    "üíß Avoid overhead watering to reduce humidity." ].

Definition spot_rust_advice : list string :=
  [ "üîç Monitor the affected areas closely.";
    "‚úÇÔ∏è Remove affected leaves to prevent spread.";
    "üíä Consider applying fungicide if spreading continues.";
    "üíß Water at soil level to avoid wet leaves.";
    "üå± Ensure proper plant spacing for air circulation." ].

Definition wilt_advice : list string :=
  [ "üíß Check soil moisture - may indicate watering issues.";
    "üå°Ô∏è Ensure proper temperature conditions.";
    "ü¶† May require bacterial or fungal treatment.";
    "‚úÇÔ∏è Remove severely affected parts.";
    "üè• Quarantine from other plants if infectious." ].

Definition fallback_advice : list string :=
  [ "üîç Continue monitoring the plant's condition.";
    "üìö Research specific treatment for this condition.";
    "üå± Maintain good plant hygiene practices.";
    "üíß Ensure proper watering schedule.";
    "üåû Check if plant is getting adequate light.";
    "üè• Consult with local agricultural extension service if symptoms persist." ].

(** The generator reads three fields and decides on [disease_name]. *)
Definition get_recommendations (disease_info : DiseaseInfo) : list string :=
  let plant_type := PyStr.lower (plant_type disease_info) in
  let disease_name := PyStr.lower (disease_name disease_info) in
  let severity := PyStr.lower (severity_level disease_info) in
  if disease_name =? "healthy" then healthy_advice
  else if PyStr.contains "blight" disease_name then blight_advice
  else if PyStr.contains "spot" disease_name || PyStr.contains "rust" disease_name
  then spot_rust_advice
  else if PyStr.contains "wilt" disease_name then wilt_advice
  else fallback_advice.

(** ** The application *)

(** In the page templates below the character [~] stands for the double
    quote of the source text; [html_quote] puts the double quotes back. *)
Definition html_quote_char (c : ascii) : ascii :=
  if Ascii.eqb c "~" then "034"%char else c.

Fixpoint html_quote (template : string) : string :=
  match template with
  | EmptyString => EmptyString
  | String c rest => String (html_quote_char c) (html_quote rest)
  end.

Section Application.

(** The two library functions whose text the responses carry:
    [json.dumps(document, indent=2)] and the extension that
    [os.path.splitext(name)[1]] returns. *)
Variable json_dumps : json -> string.
Variable splitext_ext : string -> string.

Variable cfg : Config.
Variable env : Env.

(** The classifier client.  The prompt is a constant and is left out. *)
Definition classify_with_gemini (image_path : string) : M string :=
  if negb (gemini_ready cfg) then ret "unknown"
  else
    try_catch
      (_ <- call (PIL_open image_path) (image_open env image_path) ;;
       response_text <- call (Gemini_generate_content image_path)
                             (generate_content env image_path) ;;
       match response_text with
       | None => raise "'NoneType' object has no attribute 'strip'"
       | Some response_text =>
           let text := PyStr.strip response_text in
           match PyStr.splitlines text with
           | line0 :: _ => ret line0
           | [] => raise "list index out of range"
           end
       end)
      (fun e => ret "unknown").

(** [request.args.get("format") == "json" or
     request.headers.get("Accept","").lower().find("application/json") != -1] *)
Definition wants_json (request : Request) : bool :=
  match assoc_get "format" (args request) with
  | Some v => v =? "json"
  | None => false
  end
  || PyStr.found "application/json"
       (PyStr.lower (headers_get "Accept" "" (headers request))).

(** [disease_info] as it appears under "analysis". *)
Definition info_dict (disease_info : DiseaseInfo) : json :=
  JDict [ ("plant_type", JStr (plant_type disease_info));
          ("disease_name", JStr (disease_name disease_info));
          ("severity_level", JStr (severity_level disease_info));
          ("confidence", JStr (confidence disease_info)) ].

(** [response_json] of the no-plant branch. *)
Definition no_plant_document (disease_name : string) (disease_info : DiseaseInfo)
  : json :=
  JDict [ ("status", JStr "no_plant_detected");
          ("message", JStr disease_name);
          ("detection", JList []);
          ("annotated_image", JNull);
          ("analysis", info_dict disease_info) ].

(** The f-string of the no-plant branch. *)
Definition no_plant_page (disease_name : string) (response_json : json) : string :=
html_quote "
            <div class=~result-card~>
                <div class=~disease-header error~>
                    <h3><i class=~fas fa-exclamation-triangle~></i> No Plant Detected</h3>
                    <p class=~mb-0~>"
 ++ disease_name
 ++ html_quote "</p>
                </div>
                <div class=~p-4 text-center~>
                    <i class=~fas fa-seedling fa-3x text-muted mb-3~></i>
                    <h5>Please upload an image containing a plant for analysis</h5>
                    <p class=~text-muted~>Make sure the plant is clearly visible and well-lit in the image.</p>
                </div>
                <div class=~json-section~>
                    <button class=~json-toggle~ onclick=~toggleJson(this)~>Expand</button>
                    <div class=~json-content json-collapsed~>"
 ++ json_dumps response_json
 ++ html_quote "</div>
                </div>
            </div>
            ".

(** A path, or [None], as a JSON value. *)
Definition opt_str_json (o : option string) : json :=
  match o with
  | Some s => JStr s
  | None => JNull
  end.

(** [response_json] of the plant branch. *)
Definition success_document (disease_name : string) (detections : list json)
    (annotated_image_path : option string) (disease_info : DiseaseInfo) : json :=
  JDict [ ("status", JStr "success");
          ("disease", JStr disease_name);
          ("detection", JList detections);
          ("annotated_image", opt_str_json annotated_image_path);
          ("analysis", info_dict disease_info);
          ("recommendations", JList (map JStr (get_recommendations disease_info))) ].

(** [severity_class] and [header_class], chosen by the severity. *)
Definition severity_class_of (disease_info : DiseaseInfo) : string * string :=
  if severity_level disease_info =? "Healthy" then ("severity-healthy", "")
  else if severity_level disease_info =? "High" then ("severity-high", "warning")
  else if severity_level disease_info =? "Medium" then ("severity-medium", "warning")
  else ("severity-low", "").

(** The image element of the page, present when the path is truthy. *)
Definition image_block (annotated_image_path : option string) : string :=
  match annotated_image_path with
  | Some path =>
      if path =? "" then ""
      else "<div class='text-center p-3'><img src='" ++ path
           ++ "' class='img-fluid rounded shadow' style='max-width: 100%; max-height: 400px;'></div>"
  | None => ""
  end.

(** The f-string of the plant branch. *)
Definition success_page (disease_name : string) (disease_info : DiseaseInfo)
    (annotated_image_path : option string) (response_json : json) : string :=
  let '(severity_class, header_class) := severity_class_of disease_info in
html_quote "
        <div class=~result-card~>
            <div class=~disease-header "
 ++ header_class
 ++ html_quote "~>
                <h3><i class=~fas fa-microscope~></i> Analysis Complete</h3>
                <h4>"
 ++ disease_name
 ++ html_quote "</h4>
            </div>
            
            <div class=~info-grid~>
                <div class=~info-item~>
                    <h6><i class=~fas fa-seedling~></i> Plant Type</h6>
                    <div class=~value~>"
 ++ plant_type disease_info
 ++ html_quote "</div>
                </div>
                <div class=~info-item~>
                    <h6><i class=~fas fa-virus~></i> Condition</h6>
                    <div class=~value~>"
 ++ disease_name_of disease_info
 ++ html_quote "</div>
                </div>
                <div class=~info-item "
 ++ severity_class
 ++ html_quote "~>
                    <h6><i class=~fas fa-exclamation-circle~></i> Severity</h6>
                    <div class=~value~>"
 ++ severity_level disease_info
 ++ html_quote "</div>
                </div>
                <div class=~info-item~>
                    <h6><i class=~fas fa-chart-line~></i> Confidence</h6>
                    <div class=~value~>"
 ++ confidence disease_info
 ++ html_quote "</div>
                </div>
            </div>
            
            "
 ++ image_block annotated_image_path
 ++ html_quote "
            
            <div class=~p-3~>
                <h5><i class=~fas fa-lightbulb~></i> Recommendations</h5>
                <div class=~alert alert-info~>
                    "
 ++ String.concat "<br>" (get_recommendations disease_info)
 ++ html_quote "
                </div>
            </div>
            
            <div class=~json-section~>
                <button class=~json-toggle~ onclick=~toggleJson(this)~>Expand</button>
                <div class=~json-content json-collapsed~>"
 ++ json_dumps response_json
 ++ html_quote "</div>
            </div>
        </div>
        ".

(** The name under which the upload is stored, and its path. *)
Definition unique_filename_of (file : FileStorage) : string :=
  let file_extension := str_or (splitext_ext (filename file)) ".jpg" in
  uuid4 env ++ file_extension.

Definition filepath_of (file : FileStorage) : string :=
  os_path_join UPLOAD_FOLDER (unique_filename_of file).

(** The body of the [try] block that draws the box and the label. *)
Definition annotate (filepath unique_filename disease_name : string)
  : M (option string * list json) :=
  _ <- call Cv2_import (cv2_import env) ;;
  img_cv <- call (Cv2_imread filepath) (cv2_imread env filepath) ;;
  match img_cv with
  | None => raise "Could not read image file"
  | Some (h, w) =>
      let '(x1, y1, x2, y2) := (20, 20, w - 20, h - 20)%Z in
      _ <- call (Cv2_rectangle (x1, y1) (x2, y2))
                (cv2_rectangle env (x1, y1) (x2, y2)) ;;
      let text := disease_name in
      '(tw, th, baseline) <- call (Cv2_getTextSize text) (cv2_getTextSize env text) ;;
      _ <- call (Cv2_rectangle (x1, y1 - th - 10) (x1 + tw + 10, y1))%Z
                (cv2_rectangle env (x1, y1 - th - 10) (x1 + tw + 10, y1))%Z ;;
      _ <- call (Cv2_putText text (x1 + 5, y1 - 5))%Z
                (cv2_putText env text (x1 + 5, y1 - 5))%Z ;;
      let output_name := "result_" ++ unique_filename in
      let output_path := os_path_join UPLOAD_FOLDER output_name in
      _ <- call (Cv2_imwrite output_path) (cv2_imwrite env output_path) ;;
      let annotated_image_path := "/uploads/" ++ output_name in
      let detections :=
        [ JDict [ ("bbox_xyxy", JList [JFloat x1; JFloat y1; JFloat x2; JFloat y2]);
                  ("disease", JStr disease_name) ] ] in
      ret (Some annotated_image_path, detections)
  end.

(** [jsonify({"error": message}), code] *)
Definition error_response (code : Z) (message : string) : Response :=
  {| status_code := code; body := JsonBody (JDict [("error", JStr message)]) |}.

(** The test that opens the no-plant branch of the route. *)
Definition no_plant_signal (disease_name : string) : bool :=
  PyStr.contains "no plant" (PyStr.lower disease_name)
  || PyStr.contains "cannot provide a diagnosis" (PyStr.lower disease_name).

(** The no-plant branch: the document, as JSON or inside the page. *)
Definition no_plant_response (request : Request) (disease_name : string)
    (disease_info : DiseaseInfo) : Response :=
  let response_json := no_plant_document disease_name disease_info in
  if wants_json request
  then {| status_code := 200; body := JsonBody response_json |}
  else {| status_code := 200;
          body := HtmlBody (no_plant_page disease_name response_json) |}.

(** The annotation stage: [annotated_image_path] and [detections] start as
    [None] and [[]] and are assigned by the last two statements of the
    [try] block, so an exception anywhere in it leaves both as they were. *)
Definition annotation (filepath unique_filename disease_name : string)
  : M (option string * list json) :=
  try_catch (annotate filepath unique_filename disease_name)
            (fun cv_error => ret (None, [])).

(** The end of the route for a plant image: the page is returned, whatever
    representation the request asks for. *)
Definition success_response (disease_name : string) (disease_info : DiseaseInfo)
    (annotated_image_path : option string) (detections : list json) : Response :=
  let response_json :=
    success_document disease_name detections annotated_image_path disease_info in
  {| status_code := 200;
     body := HtmlBody (success_page disease_name disease_info
                         annotated_image_path response_json) |}.

(** The route [POST /analyze]. *)
Definition analyze (request : Request) : M Response :=
  try_catch
    (match assoc_get "file" (files request) with
     | None => ret (error_response 400 "No file uploaded")
     | Some file =>
         if negb (file_bool file) || (filename file =? "")
         then ret (error_response 400 "Empty filename or no file selected")
         else
           let unique_filename := unique_filename_of file in
           let filepath := filepath_of file in
           _ <- call (File_save filepath) (file_save env filepath (stream file)) ;;
           saved <- call (Path_exists filepath) (Ok (path_exists env filepath)) ;;
           if negb saved
           then ret (error_response 500 "Failed to save uploaded file")
           else
             label <- classify_with_gemini filepath ;;
             let disease_name := str_or label "unknown" in
             disease_info <- lift (get_disease_info (gemini_ready cfg) disease_name) ;;
             if no_plant_signal disease_name
             then ret (no_plant_response request disease_name disease_info)
             else
               '(annotated_image_path, detections) <-
                  annotation filepath unique_filename disease_name ;;
               ret (success_response disease_name disease_info
                      annotated_image_path detections)
     end)
    (fun e =>
       ret {| status_code := 500;
              body := JsonBody (JDict [ ("error", JStr "Internal server error");
                                        ("detail", JStr e) ]) |}).

End Application.

(** * Vocabulary of the properties *)

(** [w] occurs in [s]: the meaning of [w in s]. *)
Definition occurs_in (w s : string) : Prop :=
  exists pre post, s = pre ++ w ++ post.

(** The two word lists of the severity rules. *)
Definition high_words : list string := ["blight"; "rot"; "wilt"; "canker"].
Definition medium_words : list string := ["spot"; "rust"; "mildew"].


(** Every character of [s] is white space. *)
Fixpoint all_space (s : string) : bool :=
  match s with
  | EmptyString => true
  | String c s' => PyStr.isspace c && all_space s'
  end.

(** [s] begins, respectively ends, with white space. *)
Definition head_space (s : string) : bool :=
  match s with
  | EmptyString => false
  | String c _ => PyStr.isspace c
  end.

Fixpoint last_space (s : string) : bool :=
  match s with
  | EmptyString => false
  | String c EmptyString => PyStr.isspace c
  | String _ s' => last_space s'
  end.

(** [t] is [s] without the white space at its two ends. *)
Definition trimmed_of (s t : string) : Prop :=
  exists l r,
    s = l ++ t ++ r /\ all_space l = true /\ all_space r = true /\
    head_space t = false /\ last_space t = false.

(** [s] begins with a line boundary; [s] has no line boundary. *)
Definition head_break (s : string) : bool :=
  match s with
  | EmptyString => false
  | String c _ => PyStr.islinebreak c
  end.

Fixpoint no_break (s : string) : bool :=
  match s with
  | EmptyString => true
  | String c s' => negb (PyStr.islinebreak c) && no_break s'
  end.

(** [line] is the first line of [s]: the text up to its first line
    boundary, or all of it when there is none. *)
Definition first_line_of (s line : string) : Prop :=
  exists tail,
    s = line ++ tail /\ no_break line = true /\
    (tail = "" \/ head_break tail = true).

(** The request carries a named file under "file", and the file is on disk
    after it was saved. *)
Definition upload_stored (splitext_ext : string -> string) (env : Env)
    (request : Request) (file : FileStorage) : Prop :=
  assoc_get "file" (files request) = Some file /\
  filename file <> "" /\
  file_save env (filepath_of splitext_ext env file) (stream file) = Ok tt /\
  path_exists env (filepath_of splitext_ext env file) = true.

(** What the classifier client answers for the stored upload. *)
Definition classified_as (splitext_ext : string -> string) (cfg : Config)
    (env : Env) (file : FileStorage) (label : string) : Prop :=
  outcome (classify_with_gemini cfg env (filepath_of splitext_ext env file))
  = Ok label.

(** What the annotation stage leaves in [annotated_image_path] and
    [detections]. *)
Definition annotation_result (splitext_ext : string -> string) (env : Env)
    (file : FileStorage) (label : string) : option string * list json :=
  match outcome (annotate env (filepath_of splitext_ext env file)
                   (unique_filename_of splitext_ext env file) label) with
  | Ok r => r
  | Raise _ => (None, [])
  end.

(** The sentence the prompt asks the model for when there is no plant. *)
Definition no_plant_sentence : string :=
  "This image contains no plants. Therefore, I cannot provide a diagnosis.".

(** * Sample configurations, environments and requests *)

(** A process with a key and a working SDK, and one with the blank key of
    the published source. *)
Definition configured : Config :=
  {| GOOGLE_API_KEY := "key"; GEMINI_AVAILABLE := true; Client_constructs := true |}.

Definition unconfigured : Config :=
  {| GOOGLE_API_KEY := ""; GEMINI_AVAILABLE := true; Client_constructs := true |}.

(** A request-time environment in which every collaborator succeeds: the
    model answers [text] and the image is 640 wide and 480 high. *)
Definition env_answering (text : option string) : Env :=
  {| uuid4 := "0b0e7a52-1f7c-4c58-9d1e-6a3f1c2d4e5f";
     file_save := fun _ _ => Ok tt;
     path_exists := fun _ => true;
     image_open := fun _ => Ok tt;
     generate_content := fun _ => Ok text;
     cv2_import := Ok tt;
     cv2_imread := fun _ => Ok (Some (480, 640)%Z);
     cv2_rectangle := fun _ _ => Ok tt;
     cv2_getTextSize := fun _ => Ok (210, 18, 6)%Z;
     cv2_putText := fun _ _ => Ok tt;
     cv2_imwrite := fun _ => Ok tt |}.

(** The same, but OpenCV cannot read the stored image. *)
Definition env_unreadable (text : option string) : Env :=
  {| uuid4 := uuid4 (env_answering text);
     file_save := file_save (env_answering text);
     path_exists := path_exists (env_answering text);
     image_open := image_open (env_answering text);
     generate_content := generate_content (env_answering text);
     cv2_import := Ok tt;
     cv2_imread := fun _ => Ok None;
     cv2_rectangle := cv2_rectangle (env_answering text);
     cv2_getTextSize := cv2_getTextSize (env_answering text);
     cv2_putText := cv2_putText (env_answering text);
     cv2_imwrite := cv2_imwrite (env_answering text) |}.


(** A record with the given plant, disease and severity. *)
Definition info_of (plant disease severity : string) : DiseaseInfo :=
  {| plant_type := plant; disease_name := disease;
     severity_level := severity; confidence := "High" |}.

(** An uploaded picture, and the part a browser sends when no file was
    chosen. *)
Definition leaf_file : FileStorage :=
  {| filename := "leaf.jpg"; content_type := "image/jpeg"; stream := "JFIF" |}.

Definition unnamed_file : FileStorage :=
  {| filename := ""; content_type := "application/octet-stream"; stream := "" |}.

(** The browser form: no query string, any representation accepted. *)
Definition request_plain : Request :=
  {| files := [("file", leaf_file)]; args := []; headers := [("Accept", "*/*")] |}.

(** An API client asking for JSON in both ways. *)
Definition request_json : Request :=
  {| files := [("file", leaf_file)];
     args := [("format", "json")];
     headers := [("Accept", "application/json")] |}.

Definition request_without_file : Request :=
  {| files := []; args := []; headers := [] |}.

Definition request_unnamed_file : Request :=
  {| files := [("file", unnamed_file)]; args := []; headers := [] |}.

(** Stand-ins for the two library functions, enough to run the route. *)
Definition dumps_braces (document : json) : string := "{...}".
Definition ext_after_dot (name : string) : string :=
  match index 0 "." name with
  | Some n => substring n (String.length name - n) name
  | None => ""
  end.

(** * Vocabulary of the further properties *)

(** The calls a computation made, oldest first. *)
Definition calls {A} (m : M A) : list event := snd m.

(** The calls of the classifier client, and those of the annotation. *)
Definition classifier_event (ev : event) : bool :=
  match ev with
  | PIL_open _ | Gemini_generate_content _ => true
  | _ => false
  end.

Definition cv2_event (ev : event) : bool :=
  match ev with
  | Cv2_import | Cv2_imread _ | Cv2_rectangle _ _ | Cv2_getTextSize _
  | Cv2_putText _ _ | Cv2_imwrite _ => true
  | _ => false
  end.

(** What the interpreter makes of a label without a colon. *)
Definition uninterpreted (label : string) : DiseaseInfo :=
  {| plant_type := "Unknown"; disease_name := label;
     severity_level := "Unknown"; confidence := "Low" |}.

(** The one detection of an annotated image of height [h] and width [w]. *)
Definition inset_detection (h w : Z) (label : string) : json :=
  JDict [ ("bbox_xyxy",
           JList [JFloat 20; JFloat 20; JFloat (w - 20); JFloat (h - 20)]);
          ("disease", JStr label) ].

(** The calls of the annotation block when every one of them returns. *)
Definition annotation_calls (filepath unique_filename label : string)
    (h w tw th : Z) : list event :=
  [ Cv2_import;
    Cv2_imread filepath;
    Cv2_rectangle (20, 20)%Z (w - 20, h - 20)%Z;
    Cv2_getTextSize label;
    Cv2_rectangle (20, 20 - th - 10)%Z (20 + tw + 10, 20)%Z;
    Cv2_putText label (20 + 5, 20 - 5)%Z;
    Cv2_imwrite (os_path_join UPLOAD_FOLDER ("result_" ++ unique_filename)) ].

(** An environment whose disk is full: saving raises. *)
Definition env_disk_full : Env :=
  {| uuid4 := uuid4 (env_answering None);
     file_save := fun _ _ => Raise "[Errno 28] No space left on device";
     path_exists := fun _ => false;
     image_open := image_open (env_answering None);
     generate_content := generate_content (env_answering None);
     cv2_import := cv2_import (env_answering None);
     cv2_imread := cv2_imread (env_answering None);
     cv2_rectangle := cv2_rectangle (env_answering None);
     cv2_getTextSize := cv2_getTextSize (env_answering None);
     cv2_putText := cv2_putText (env_answering None);
     cv2_imwrite := cv2_imwrite (env_answering None) |}.

(** An environment in which the saved file is not found afterwards. *)
Definition env_file_lost : Env :=
  {| uuid4 := uuid4 (env_answering None);
     file_save := fun _ _ => Ok tt;
     path_exists := fun _ => false;
     image_open := image_open (env_answering None);
     generate_content := generate_content (env_answering None);
     cv2_import := cv2_import (env_answering None);
     cv2_imread := cv2_imread (env_answering None);
     cv2_rectangle := cv2_rectangle (env_answering None);
     cv2_getTextSize := cv2_getTextSize (env_answering None);
     cv2_putText := cv2_putText (env_answering None);
     cv2_imwrite := cv2_imwrite (env_answering None) |}.

(** Another stand-in for the extension of a file name: the text from its
    last dot on, when no slash follows that dot. *)
Fixpoint from_last_dot (name : string) : option string :=
  match name with
  | EmptyString => None
  | String c rest =>
      match from_last_dot rest with
      | Some e => Some e
      | None => if Ascii.eqb c "." then Some name else None
      end
  end.

Definition last_extension (name : string) : string :=
  match from_last_dot name with
  | Some e => if PyStr.contains "/" e then "" else e
  | None => ""
  end.

(** A part whose file name tries to leave the upload folder. *)
Definition traversal_file : FileStorage :=
  {| filename := "../../etc/cron.d/leaf.png";
     content_type := "image/png"; stream := "" |}.

(** * Properties *)

(** ** The string methods on examples *)

Example strip_example :
  PyStr.strip (String "009" "  Tomato : Late_blight " ++ String "010" "")
  = "Tomato : Late_blight".
Proof. reflexivity. Qed.

Example lower_example : PyStr.lower "Late_BLIGHT (Stem)" = "late_blight (stem)".
Proof. reflexivity. Qed.

Example split_once_example :
  PyStr.split_once ":" "a:b:c" = ["a"; "b:c"] /\
  PyStr.split_once ":" "abc" = ["abc"] /\
  PyStr.split_once ":" ":" = [""; ""].
Proof. repeat split. Qed.

Example splitlines_example :
  PyStr.splitlines
    ("a" ++ String "013" (String "010" ("b" ++ String "010" (String "010" "c"))))
  = ["a"; "b"; ""; "c"] /\
  PyStr.splitlines ("a" ++ String "010" "") = ["a"] /\
  PyStr.splitlines "" = [].
Proof. repeat split. Qed.

Example contains_example :
  PyStr.contains "no plant" "there is no plant here" = true /\
  PyStr.contains "blight" "leaf spot" = false /\
  PyStr.contains "" "" = true.
Proof. repeat split. Qed.

Example os_path_join_example :
  os_path_join UPLOAD_FOLDER "a.jpg" = "uploads/a.jpg" /\
  os_path_join "uploads/" "a.jpg" = "uploads/a.jpg" /\
  os_path_join UPLOAD_FOLDER "/tmp/a.jpg" = "/tmp/a.jpg".
Proof. repeat split. Qed.

(** ** Outcomes of composed computations *)

Section Outcomes.
Context {A B : Type}.

Lemma outcome_ret (a : A) : outcome (ret a) = Ok a.
Proof. reflexivity. Qed.

Lemma outcome_raise (msg : string) : outcome (@raise A msg) = Raise msg.
Proof. reflexivity. Qed.

Lemma outcome_call (ev : event) (r : result A) : outcome (call ev r) = r.
Proof. reflexivity. Qed.

Lemma outcome_lift (r : result A) : outcome (lift r) = r.
Proof. reflexivity. Qed.

Lemma outcome_bind (m : M A) (k : A -> M B) :
  outcome (bind m k) =
  match outcome m with
  | Ok a => outcome (k a)
  | Raise msg => Raise msg
  end.
Proof.
  destruct m as [[a | msg] t]; simpl; [ | reflexivity ].
  destruct (k a); reflexivity.
Qed.

Lemma outcome_try_catch (m : M A) (handler : string -> M A) :
  outcome (try_catch m handler) =
  match outcome m with
  | Ok a => Ok a
  | Raise msg => outcome (handler msg)
  end.
Proof.
  destruct m as [[a | msg] t]; simpl; [ reflexivity | ].
  destruct (handler msg); reflexivity.
Qed.

End Outcomes.

(** ** Substrings *)

Lemma append_empty_r (s : string) : s ++ "" = s.
Proof. induction s; simpl; congruence. Qed.

Lemma append_assoc (a b c : string) : (a ++ b) ++ c = a ++ b ++ c.
Proof. induction a; simpl; congruence. Qed.

Lemma prefix_app (a b : string) :
  prefix a b = true <-> exists post, b = a ++ post.
Proof.
  revert b; induction a as [ | c a IH]; intros b; simpl.
  - destruct b; split; eauto.
  - destruct b as [ | d b].
    + split; [ discriminate | intros [post H]; discriminate ].
    + simpl. destruct (ascii_dec c d) as [-> | Hne].
      * rewrite IH. split; intros [post H]; exists post.
        -- now rewrite H.
        -- now injection H.
      * split; [ discriminate | ].
        intros [post H]. injection H as H1 H2. congruence.
Qed.

Lemma contains_occurs (w s : string) :
  PyStr.contains w s = true <-> occurs_in w s.
Proof.
  unfold occurs_in. induction s as [ | c s IH]; cbn [PyStr.contains].
  - rewrite orb_false_r, prefix_app. split.
    + intros [post H]. exists "", post. exact H.
    + intros [[ | d pre] [post H]]; [ eauto | discriminate ].
  - rewrite orb_true_iff, prefix_app, IH. split.
    + intros [[post H] | [pre [post H]]].
      * exists "", post. exact H.
      * exists (String c pre), post. simpl. now rewrite H.
    + intros [[ | d pre] [post H]].
      * left. eauto.
      * right. injection H as _ H. eauto.
Qed.

Lemma contains_absent (w s : string) :
  PyStr.contains w s = false <-> ~ occurs_in w s.
Proof.
  rewrite <- contains_occurs. destruct (PyStr.contains w s); split; congruence.
Qed.


Lemma occurs_in_head (w post : string) : occurs_in w (w ++ post).
Proof. now exists "", post. Qed.

Lemma occurs_in_app_l (w p s : string) : occurs_in w s -> occurs_in w (p ++ s).
Proof.
  intros [pre [post ->]]. exists (p ++ pre), post. now rewrite append_assoc.
Qed.

(** ** Splitting at the first colon *)

Lemma contains_colon_cons (c : ascii) (s : string) :
  PyStr.contains ":" (String c s) = Ascii.eqb c ":" || PyStr.contains ":" s.
Proof.
  cbn [PyStr.contains prefix]. destruct (ascii_dec ":" c) as [<- | Hne].
  - now destruct s.
  - destruct (Ascii.eqb_spec c ":"); [ congruence | reflexivity ].
Qed.

Lemma split_once_first_colon (a b : string) :
  PyStr.contains ":" a = false ->
  PyStr.split_once ":" (a ++ ":" ++ b) = [a; b].
Proof.
  induction a as [ | c a IH]; intros H.
  - reflexivity.
  - rewrite contains_colon_cons in H. apply orb_false_iff in H as [Hc Ha].
    cbn [append PyStr.split_once]. rewrite Hc.
    change (a ++ String ":" b) with (a ++ ":" ++ b).
    now rewrite (IH Ha).
Qed.

Lemma first_colon (s : string) :
  PyStr.contains ":" s = true ->
  exists a b, s = a ++ ":" ++ b /\ PyStr.contains ":" a = false.
Proof.
  induction s as [ | c s IH]; intros H.
  - discriminate.
  - rewrite contains_colon_cons in H.
    destruct (Ascii.eqb_spec c ":") as [-> | Hne].
    + exists "", s. split; reflexivity.
    + destruct (IH H) as [a [b [-> Ha]]].
      exists (String c a), b. split; [ reflexivity | ].
      rewrite contains_colon_cons, Ha.
      now destruct (Ascii.eqb_spec c ":").
Qed.

Lemma contains_colon_app (a b : string) :
  PyStr.contains ":" (a ++ ":" ++ b) = true.
Proof. apply contains_occurs. now exists a, b. Qed.

(** ** Trimming *)

Lemma lstrip_spec (s : string) :
  exists l, s = l ++ PyStr.lstrip s /\ all_space l = true /\
            head_space (PyStr.lstrip s) = false.
Proof.
  induction s as [ | c s [l [Hs [Hl Hh]]]].
  - exists "". repeat split.
  - simpl. destruct (PyStr.isspace c) eqn:Hc.
    + exists (String c l). simpl. rewrite Hc, Hl, <- Hs. repeat split. exact Hh.
    + exists "". simpl. rewrite Hc. repeat split.
Qed.

Lemma rstrip_spec (s : string) :
  exists r, s = PyStr.rstrip s ++ r /\ all_space r = true /\
            last_space (PyStr.rstrip s) = false.
Proof.
  induction s as [ | c s [r [Hs [Hr Hl]]]].
  - exists "". repeat split.
  - cbn [PyStr.rstrip]. destruct (PyStr.rstrip s) as [ | d u] eqn:Hu.
    + simpl in Hs. subst r.
      destruct (PyStr.isspace c) eqn:Hc.
      * exists (String c s). simpl. rewrite Hc, Hr. repeat split.
      * exists s. simpl. rewrite Hc. repeat split. exact Hr.
    + exists r. split; [ | split; [ exact Hr | exact Hl ] ].
      simpl. simpl in Hs. now rewrite <- Hs.
Qed.

Lemma rstrip_head (s : string) :
  head_space s = false -> head_space (PyStr.rstrip s) = false.
Proof.
  destruct s as [ | c s]; [ reflexivity | ].
  cbn [PyStr.rstrip head_space]. intros Hc.
  destruct (PyStr.rstrip s); [ rewrite Hc | ]; exact Hc.
Qed.

Lemma strip_trimmed (s : string) : trimmed_of s (PyStr.strip s).
Proof.
  unfold PyStr.strip.
  destruct (lstrip_spec s) as [l [Hs [Hl Hh]]].
  destruct (rstrip_spec (PyStr.lstrip s)) as [r [Hs' [Hr Hlast]]].
  exists l, r. repeat split; auto.
  - now rewrite <- Hs', <- Hs.
  - now apply rstrip_head.
Qed.

Lemma lstrip_all_space (l u : string) :
  all_space l = true -> PyStr.lstrip (l ++ u) = PyStr.lstrip u.
Proof.
  induction l as [ | c l IH]; simpl; [ reflexivity | ].
  intros H. apply andb_true_iff in H as [Hc Hl]. rewrite Hc. auto.
Qed.

Lemma rstrip_all_space (r : string) :
  all_space r = true -> PyStr.rstrip r = "".
Proof.
  induction r as [ | c r IH]; simpl; [ reflexivity | ].
  intros H. apply andb_true_iff in H as [Hc Hr]. now rewrite (IH Hr), Hc.
Qed.

Lemma rstrip_app_space (t r : string) :
  all_space r = true -> PyStr.rstrip (t ++ r) = PyStr.rstrip t.
Proof.
  intros Hr. induction t as [ | c t IH].
  - simpl. now apply rstrip_all_space.
  - cbn [append PyStr.rstrip]. now rewrite IH.
Qed.

Lemma rstrip_cons (c : ascii) (s : string) :
  PyStr.rstrip (String c s) =
  match PyStr.rstrip s with
  | EmptyString => if PyStr.isspace c then EmptyString else String c EmptyString
  | String d r => String c (String d r)
  end.
Proof. reflexivity. Qed.

Lemma rstrip_fixed (t : string) :
  last_space t = false -> PyStr.rstrip t = t.
Proof.
  induction t as [ | c t IH]; [ reflexivity | ].
  destruct t as [ | d u].
  - simpl. now intros ->.
  - intros H. rewrite rstrip_cons, (IH H). reflexivity.
Qed.

Lemma lstrip_only_space (r : string) :
  all_space r = true -> PyStr.lstrip r = "".
Proof.
  induction r as [ | c r IH]; simpl; [ reflexivity | ].
  intros H. apply andb_true_iff in H as [Hc Hr]. now rewrite Hc, IH.
Qed.

(** The trimmed form is unique: it is what [strip] returns. *)
Lemma trimmed_unique (s t : string) : trimmed_of s t -> t = PyStr.strip s.
Proof.
  intros [l [r [-> [Hl [Hr [Hh Hlast]]]]]].
  unfold PyStr.strip. rewrite (lstrip_all_space _ _ Hl).
  destruct t as [ | c t].
  - simpl. now rewrite (lstrip_only_space _ Hr).
  - simpl in Hh. cbn [append PyStr.lstrip]. rewrite Hh.
    change (String c (t ++ r)) with (String c t ++ r).
    rewrite (rstrip_app_space _ _ Hr). symmetry. now apply rstrip_fixed.
Qed.

(** ** The result interpreter *)

(** What the interpreter returns for a label cut at its first colon. *)
Lemma get_disease_info_at_colon (ready : bool) (a b : string) :
  PyStr.contains ":" a = false ->
  get_disease_info ready (a ++ ":" ++ b) =
  Ok {| plant_type := PyStr.strip a;
        disease_name := PyStr.strip b;
        severity_level :=
          if PyStr.lower (PyStr.strip b) =? "healthy" then "Healthy"
          else if any_in high_words (PyStr.lower (PyStr.strip b)) then "High"
          else if any_in medium_words (PyStr.lower (PyStr.strip b)) then "Medium"
          else "Low to Medium";
        confidence := if ready then "High" else "Low" |}.
Proof.
  intros Ha. unfold get_disease_info.
  now rewrite contains_colon_app, (split_once_first_colon _ _ Ha).
Qed.

Lemma get_disease_info_no_colon (ready : bool) (s : string) :
  PyStr.contains ":" s = false ->
  get_disease_info ready s =
  Ok {| plant_type := "Unknown";
        disease_name := s;
        severity_level := "Unknown";
        confidence := "Low" |}.
Proof. intros Hs. unfold get_disease_info. now rewrite Hs. Qed.

(** The interpreter has no error path. *)
Lemma get_disease_info_total (ready : bool) (s : string) :
  exists info, get_disease_info ready s = Ok info.
Proof.
  destruct (PyStr.contains ":" s) eqn:Hs.
  - destruct (first_colon s Hs) as [a [b [-> Ha]]].
    rewrite (get_disease_info_at_colon ready a b Ha). eauto.
  - rewrite (get_disease_info_no_colon ready s Hs). eauto.
Qed.



(** C4, as stated, fails: with the classifier configured, the label
    "unknown" (what the client returns when the call fails) has no colon
    and is given the confidence "Low". *)
Lemma confidence_counterexample :
  gemini_ready configured = true /\
  exists info,
    get_disease_info (gemini_ready configured) "unknown" = Ok info /\
    ~ (confidence info = "High" <-> gemini_ready configured = true).
Proof.
  split; [ reflexivity | ].
  eexists. split; [ reflexivity | ].
  simpl. intros [_ H]. specialize (H eq_refl). discriminate H.
Qed.

(** C4, amended.  For a label that contains a colon the confidence is
    "High" when the classifier-configured flag is set and "Low" when it is
    not; for a label without a colon it is "Low" whatever the flag. *)
Theorem confidence_reflects_flag (cfg : Config) (s : string) :
  exists info,
    get_disease_info (gemini_ready cfg) s = Ok info /\
    (occurs_in ":" s ->
     (confidence info = "High" <-> gemini_ready cfg = true) /\
     (confidence info = "Low" <-> gemini_ready cfg = false)) /\
    (~ occurs_in ":" s -> confidence info = "Low").
Proof.
  destruct (PyStr.contains ":" s) eqn:Hs.
  - destruct (first_colon s Hs) as [a [b [-> Ha]]].
    rewrite (get_disease_info_at_colon _ a b Ha).
    eexists. split; [ reflexivity | ]. cbn [confidence]. split.
    + intros _. destruct (gemini_ready cfg); repeat split; congruence.
    + intros H. exfalso. apply H. now exists a, b.
  - rewrite (get_disease_info_no_colon _ s Hs).
    eexists. split; [ reflexivity | ]. cbn [confidence]. split.
    + intros H. apply contains_occurs in H. congruence.
    + reflexivity.
Qed.

Lemma confidence_reflects_flag_witness :
  (exists info,
     get_disease_info (gemini_ready configured) "Rice : Healthy" = Ok info /\
     confidence info = "High") /\
  (exists info,
     get_disease_info (gemini_ready unconfigured) "Rice : Healthy" = Ok info /\
     confidence info = "Low") /\
  (exists info,
     get_disease_info (gemini_ready configured) "unknown" = Ok info /\
     confidence info = "Low").
Proof.
  repeat split.
  - destruct (confidence_reflects_flag configured "Rice : Healthy")
      as [info [Hinfo [Hcolon _]]].
    exists info. split; [ exact Hinfo | ].
    apply Hcolon; [ now exists "Rice ", " Healthy" | reflexivity ].
  - destruct (confidence_reflects_flag unconfigured "Rice : Healthy")
      as [info [Hinfo [Hcolon _]]].
    exists info. split; [ exact Hinfo | ].
    apply Hcolon; [ now exists "Rice ", " Healthy" | reflexivity ].
  - destruct (confidence_reflects_flag configured "unknown")
      as [info [Hinfo [_ Hnone]]].
    exists info. split; [ exact Hinfo | ].
    apply Hnone. apply contains_absent. reflexivity.
Defined.



(** ** The recommendation generator *)

(** The five lists differ, so the branch taken shows in the result. *)
Lemma advice_lists_distinct :
  NoDup [healthy_advice; blight_advice; spot_rust_advice; wilt_advice;
         fallback_advice].
Proof.
  repeat constructor; simpl; intuition discriminate.
Qed.

(** C6.  The advice is a function of the disease name alone, defined for
    every record: in lower case, the name "healthy" gives the healthy list;
    otherwise a name with "blight" the blight list; otherwise one with
    "spot" or "rust" the spot-and-rust list; otherwise one with "wilt" the
    wilt list; otherwise, the empty name included, the fallback list. *)
Theorem get_recommendations_first_match (info : DiseaseInfo) :
  let d := PyStr.lower (disease_name info) in
  (d = "healthy" -> get_recommendations info = healthy_advice) /\
  (d <> "healthy" -> occurs_in "blight" d ->
   get_recommendations info = blight_advice) /\
  (d <> "healthy" -> ~ occurs_in "blight" d ->
   occurs_in "spot" d \/ occurs_in "rust" d ->
   get_recommendations info = spot_rust_advice) /\
  (d <> "healthy" -> ~ occurs_in "blight" d ->
   ~ occurs_in "spot" d -> ~ occurs_in "rust" d -> occurs_in "wilt" d ->
   get_recommendations info = wilt_advice) /\
  (d <> "healthy" -> ~ occurs_in "blight" d ->
   ~ occurs_in "spot" d -> ~ occurs_in "rust" d -> ~ occurs_in "wilt" d ->
   get_recommendations info = fallback_advice) /\
  (disease_name info = "" -> get_recommendations info = fallback_advice) /\
  (forall info', disease_name info' = disease_name info ->
                 get_recommendations info' = get_recommendations info).
Proof.
  cbv zeta.
  assert (Hsame : forall info', disease_name info' = disease_name info ->
                  get_recommendations info' = get_recommendations info).
  { intros info' H. unfold get_recommendations. now rewrite H. }
  assert (Hempty : disease_name info = "" ->
                   get_recommendations info = fallback_advice).
  { intros H. unfold get_recommendations. now rewrite H. }
  repeat match goal with |- _ /\ _ => split end; try assumption;
    unfold get_recommendations; cbv zeta;
    repeat match goal with
      | |- _ <> _ -> _ =>
          let H := fresh in intros H; apply String.eqb_neq in H; rewrite H
      | |- ~ _ -> _ =>
          let H := fresh in intros H; apply contains_absent in H; rewrite ?H
      | |- _ \/ _ -> _ =>
          let H := fresh in
          intros [H | H]; apply contains_occurs in H; rewrite H, ?orb_true_r
      | |- occurs_in _ _ -> _ =>
          let H := fresh in intros H; apply contains_occurs in H; rewrite ?H
      | |- _ = _ -> _ => let H := fresh in intros H; rewrite H
      end;
    cbn [orb]; reflexivity.
Qed.

Lemma get_recommendations_first_match_witness :
  get_recommendations (info_of "Rice" "Healthy" "Healthy") = healthy_advice /\
  get_recommendations (info_of "Tomato" "Late_blight" "High") = blight_advice /\
  get_recommendations (info_of "Wheat" "Leaf_Rust" "Medium") = spot_rust_advice /\
  get_recommendations (info_of "Banana" "Fusarium wilt" "High") = wilt_advice /\
  get_recommendations (info_of "Wheat" "Karnal_bunt" "Low to Medium") = fallback_advice /\
  get_recommendations (info_of "Unknown" "" "Unknown") = fallback_advice.
Proof.
  split; [ | split; [ | split; [ | split; [ | split ] ] ] ].
  - pose proof (get_recommendations_first_match
                  (info_of "Rice" "Healthy" "Healthy")) as T.
    cbv zeta in T. destruct T as [T _]. apply T. reflexivity.
  - pose proof (get_recommendations_first_match
                  (info_of "Tomato" "Late_blight" "High")) as T.
    cbv zeta in T. destruct T as [_ [T _]]. apply T.
    + intros H; vm_compute in H; discriminate H.
    + now exists "late_", "".
  - pose proof (get_recommendations_first_match
                  (info_of "Wheat" "Leaf_Rust" "Medium")) as T.
    cbv zeta in T. destruct T as [_ [_ [T _]]]. apply T.
    + intros H; vm_compute in H; discriminate H.
    + apply contains_absent. reflexivity.
    + right. now exists "leaf_", "".
  - pose proof (get_recommendations_first_match
                  (info_of "Banana" "Fusarium wilt" "High")) as T.
    cbv zeta in T. destruct T as [_ [_ [_ [T _]]]].
    apply T; try (apply contains_absent; reflexivity).
    + intros H; vm_compute in H; discriminate H.
    + now exists "fusarium ", "".
  - pose proof (get_recommendations_first_match
                  (info_of "Wheat" "Karnal_bunt" "Low to Medium")) as T.
    cbv zeta in T. destruct T as [_ [_ [_ [_ [T _]]]]].
    apply T; try (apply contains_absent; reflexivity).
    intros H; vm_compute in H; discriminate H.
  - pose proof (get_recommendations_first_match
                  (info_of "Unknown" "" "Unknown")) as T.
    cbv zeta in T. destruct T as [_ [_ [_ [_ [_ [T _]]]]]]. apply T. reflexivity.
Defined.

(** ** Lines *)

Lemma linebreak_isspace (c : ascii) :
  PyStr.islinebreak c = true -> PyStr.isspace c = true.
Proof.
  unfold PyStr.islinebreak, PyStr.isspace.
  set (n := nat_of_ascii c). intros H.
  apply orb_true_iff in H as [H | H]; apply andb_true_iff in H as [H1 H2];
    apply Nat.leb_le in H1, H2.
  - assert (E1 : (9 <=? n)%nat = true) by (apply Nat.leb_le; lia).
    assert (E2 : (n <=? 13)%nat = true) by (apply Nat.leb_le; lia).
    now rewrite E1, E2.
  - assert (E1 : (28 <=? n)%nat = true) by (apply Nat.leb_le; lia).
    assert (E2 : (n <=? 31)%nat = true) by (apply Nat.leb_le; lia).
    rewrite E1, E2. apply orb_true_iff. left. apply orb_true_r.
Qed.

Lemma splitlines_cons (c : ascii) (s : string) :
  PyStr.islinebreak c = false ->
  PyStr.splitlines (String c s) =
  match PyStr.splitlines s with
  | l :: ls => String c l :: ls
  | [] => [String c ""]
  end.
Proof. intros H. cbn [PyStr.splitlines]. now rewrite H. Qed.

Lemma splitlines_break (c : ascii) (s : string) :
  PyStr.islinebreak c = true ->
  exists rest, PyStr.splitlines (String c s) = "" :: rest.
Proof.
  intros H. cbn [PyStr.splitlines]. rewrite H.
  destruct s as [ | d s]; [ eauto | ].
  destruct (Ascii.eqb c "013" && Ascii.eqb d "010"); eauto.
Qed.

Lemma splitlines_nil (s : string) : PyStr.splitlines s = [] -> s = "".
Proof.
  destruct s as [ | c s]; [ reflexivity | ].
  destruct (PyStr.islinebreak c) eqn:Hc.
  - destruct (splitlines_break c s Hc) as [rest ->]. discriminate.
  - rewrite (splitlines_cons c s Hc).
    destruct (PyStr.splitlines s); discriminate.
Qed.

(** The head of [splitlines] is the first line. *)
Lemma splitlines_first_line (s line : string) (rest : list string) :
  PyStr.splitlines s = line :: rest -> first_line_of s line.
Proof.
  revert line rest. induction s as [ | c s IH]; intros line rest H.
  - discriminate.
  - destruct (PyStr.islinebreak c) eqn:Hc.
    + destruct (splitlines_break c s Hc) as [rest' H'].
      rewrite H' in H. injection H as <- _.
      exists (String c s). repeat split. right. exact Hc.
    + rewrite (splitlines_cons c s Hc) in H.
      destruct (PyStr.splitlines s) as [ | l ls] eqn:Hs.
      * injection H as <- _. apply splitlines_nil in Hs. subst s.
        exists "". repeat split; [ simpl; now rewrite Hc | now left ].
      * injection H as <- _.
        destruct (IH l ls eq_refl) as [tail [-> [Hl Ht]]].
        exists tail. repeat split; [ simpl; now rewrite Hc, Hl | exact Ht ].
Qed.

(** A text has one first line. *)
Lemma first_line_unique (s l1 l2 : string) :
  first_line_of s l1 -> first_line_of s l2 -> l1 = l2.
Proof.
  intros [t1 [H1 [N1 B1]]] [t2 [H2 [N2 B2]]]. subst s.
  revert l2 H2 N2. induction l1 as [ | c l1 IH]; intros l2 H2 N2.
  - destruct l2 as [ | d l2]; [ reflexivity | exfalso ].
    simpl in H2, N2. apply andb_true_iff in N2 as [Hd _].
    destruct B1 as [-> | B1]; [ discriminate | ].
    rewrite H2 in B1. simpl in B1. rewrite B1 in Hd. discriminate.
  - simpl in N1. apply andb_true_iff in N1 as [Hc N1].
    destruct l2 as [ | d l2].
    + exfalso. simpl in H2.
      destruct B2 as [-> | B2]; [ discriminate | ].
      rewrite <- H2 in B2. simpl in B2. rewrite B2 in Hc. discriminate.
    + simpl in H2, N2. injection H2 as -> H2.
      apply andb_true_iff in N2 as [_ N2].
      f_equal. now apply IH.
Qed.

(** The first line of a trimmed, non-blank text is not empty. *)
Lemma splitlines_strip_nonempty (text line : string) (rest : list string) :
  PyStr.splitlines (PyStr.strip text) = line :: rest -> line <> "".
Proof.
  destruct (strip_trimmed text) as [l [r [_ [_ [_ [Hh _]]]]]].
  destruct (PyStr.strip text) as [ | c u]; [ discriminate | ].
  simpl in Hh. intros H.
  assert (Hc : PyStr.islinebreak c = false).
  { destruct (PyStr.islinebreak c) eqn:Hc; [ | reflexivity ].
    apply linebreak_isspace in Hc. congruence. }
  rewrite (splitlines_cons c u Hc) in H.
  destruct (PyStr.splitlines u); injection H as <- _; discriminate.
Qed.

(** ** The classifier client *)



Lemma classify_with_gemini_label (cfg : Config) (env : Env) (image_path : string) :
  exists label calls,
    classify_with_gemini cfg env image_path = (Ok label, calls) /\ label <> "".
Proof.
  unfold classify_with_gemini.
  destruct (gemini_ready cfg); cbn [negb];
    [ | exists "unknown", []; split; [ reflexivity | discriminate ] ].
  destruct (image_open env image_path) as [[] | e0];
    [ | do 2 eexists; split; [ reflexivity | discriminate ] ].
  destruct (generate_content env image_path) as [[text | ] | e1];
    [ | do 2 eexists; split; [ reflexivity | discriminate ] .. ].
  destruct (PyStr.splitlines (PyStr.strip text)) as [ | line rest] eqn:Hlines.
  - do 2 eexists. split; [ cbn; rewrite Hlines; reflexivity | discriminate ].
  - do 2 eexists. split; [ cbn; rewrite Hlines; reflexivity | ].
    exact (splitlines_strip_nonempty text line rest Hlines).
Qed.

(** ** The analyze route *)

Section Route.

Variable json_dumps : json -> string.
Variable splitext_ext : string -> string.
Variable cfg : Config.
Variable env : Env.

#[local] Abbreviation analyze' := (analyze json_dumps splitext_ext cfg env).
#[local] Abbreviation stored_path := (filepath_of splitext_ext env).
#[local] Abbreviation stored_name := (unique_filename_of splitext_ext env).

Lemma named_file_passes (file : FileStorage) :
  filename file <> "" ->
  negb (file_bool file) || (filename file =? "") = false.
Proof.
  intros H. unfold file_bool. apply String.eqb_neq in H. now rewrite H.
Qed.

(** The route after a stored upload: the label is interpreted, then either
    branch answers with status 200. *)
Lemma analyze_stored (request : Request) (file : FileStorage) (label : string) :
  upload_stored splitext_ext env request file ->
  classified_as splitext_ext cfg env file label ->
  exists info,
    get_disease_info (gemini_ready cfg) label = Ok info /\
    outcome (analyze' request) =
    Ok (if no_plant_signal label
        then no_plant_response json_dumps request label info
        else success_response json_dumps label info
               (fst (annotation_result splitext_ext env file label))
               (snd (annotation_result splitext_ext env file label))).
Proof.
  intros [Hfile [Hname [Hsave Hexists]]] Hlabel.
  unfold classified_as in Hlabel.
  destruct (classify_with_gemini_label cfg env (stored_path file))
    as [label' [calls [Hcl Hne]]].
  rewrite Hcl in Hlabel. injection Hlabel as ->.
  destruct (get_disease_info_total (gemini_ready cfg) label) as [info Hinfo].
  exists info. split; [ exact Hinfo | ].
  unfold analyze. rewrite Hfile, (named_file_passes file Hname).
  cbv zeta.
  rewrite outcome_try_catch, outcome_bind, outcome_call, Hsave.
  cbn beta iota.
  rewrite outcome_bind, outcome_call, Hexists. cbn beta iota. cbn [negb].
  rewrite outcome_bind, Hcl. cbn [outcome fst].
  assert (Hor : str_or label "unknown" = label).
  { unfold str_or. apply String.eqb_neq in Hne. now rewrite Hne. }
  rewrite Hor, outcome_bind, outcome_lift, Hinfo.
  destruct (no_plant_signal label); [ reflexivity | ].
  rewrite outcome_bind. unfold annotation, annotation_result.
  rewrite outcome_try_catch.
  destruct (outcome (annotate env (stored_path file) (stored_name file) label))
    as [[path dets] | e]; reflexivity.
Qed.

(** The annotation block on an image that OpenCV reads and writes: the box
    is the image inset by 20 on every side. *)
Lemma annotate_succeeds (filepath unique_filename label : string)
    (h w tw th baseline : Z) :
  cv2_import env = Ok tt ->
  cv2_imread env filepath = Ok (Some (h, w)) ->
  cv2_rectangle env (20, 20)%Z (w - 20, h - 20)%Z = Ok tt ->
  cv2_getTextSize env label = Ok (tw, th, baseline) ->
  cv2_rectangle env (20, 20 - th - 10)%Z (20 + tw + 10, 20)%Z = Ok tt ->
  cv2_putText env label (20 + 5, 20 - 5)%Z = Ok tt ->
  cv2_imwrite env (os_path_join UPLOAD_FOLDER ("result_" ++ unique_filename))
    = Ok tt ->
  outcome (annotate env filepath unique_filename label) =
  Ok (Some ("/uploads/" ++ "result_" ++ unique_filename),
      [ JDict [ ("bbox_xyxy",
                 JList [JFloat 20; JFloat 20; JFloat (w - 20); JFloat (h - 20)]);
                ("disease", JStr label) ] ]).
Proof.
  intros Himport Hread Hrect Hsize Hrect' Hput Hwrite. unfold annotate.
  rewrite outcome_bind, outcome_call, Himport. cbn beta iota.
  rewrite outcome_bind, outcome_call, Hread. cbn beta iota zeta.
  rewrite outcome_bind, outcome_call, Hrect. cbn beta iota.
  rewrite outcome_bind, outcome_call, Hsize. cbn beta iota.
  rewrite outcome_bind, outcome_call, Hrect'. cbn beta iota.
  rewrite outcome_bind, outcome_call, Hput. cbn beta iota.
  rewrite outcome_bind, outcome_call, Hwrite. reflexivity.
Qed.

(** The annotation block on an image that OpenCV cannot read. *)
Lemma annotate_unreadable (filepath unique_filename label : string) :
  cv2_import env = Ok tt ->
  cv2_imread env filepath = Ok None ->
  outcome (annotate env filepath unique_filename label) =
  Raise "Could not read image file".
Proof.
  intros Himport Hread. unfold annotate.
  rewrite outcome_bind, outcome_call, Himport. cbn beta iota.
  rewrite outcome_bind, outcome_call, Hread. reflexivity.
Qed.

(** The outermost handler turns every exception into an answer. *)
Lemma analyze_always_answers (request : Request) :
  exists response, outcome (analyze' request) = Ok response.
Proof.
  unfold analyze. rewrite outcome_try_catch.
  match goal with |- context [match ?m with Ok _ => _ | Raise _ => _ end] =>
    destruct m end; eexists; reflexivity.
Qed.

(** Both pages carry the dump of the response document. *)
Lemma no_plant_page_carries (label : string) (document : json) :
  occurs_in (json_dumps document) (no_plant_page json_dumps label document).
Proof.
  unfold no_plant_page.
  do 3 apply occurs_in_app_l. apply occurs_in_head.
Qed.

Lemma success_page_carries (label : string) (info : DiseaseInfo)
    (path : option string) (document : json) :
  occurs_in (json_dumps document) (success_page json_dumps label info path document).
Proof.
  unfold success_page. destruct (severity_class_of info) as [sc hc].
  do 19 apply occurs_in_app_l. apply occurs_in_head.
Qed.

(** The no-plant branch of the route. *)
Lemma no_plant_branch (request : Request) (file : FileStorage) (label : string) :
  upload_stored splitext_ext env request file ->
  classified_as splitext_ext cfg env file label ->
  no_plant_signal label = true ->
  exists info,
    get_disease_info (gemini_ready cfg) label = Ok info /\
    outcome (analyze' request) =
    Ok {| status_code := 200;
          body := if wants_json request
                  then JsonBody (no_plant_document label info)
                  else HtmlBody (no_plant_page json_dumps label
                                   (no_plant_document label info)) |}.
Proof.
  intros Hup Hlabel Hsignal.
  destruct (analyze_stored request file label Hup Hlabel) as [info [Hinfo Hrun]].
  exists info. split; [ exact Hinfo | ].
  rewrite Hrun, Hsignal. unfold no_plant_response.
  now destruct (wants_json request).
Qed.

(** The plant branch of the route: the page, for every request. *)
Lemma plant_branch (request : Request) (file : FileStorage) (label : string) :
  upload_stored splitext_ext env request file ->
  classified_as splitext_ext cfg env file label ->
  no_plant_signal label = false ->
  exists info,
    get_disease_info (gemini_ready cfg) label = Ok info /\
    outcome (analyze' request) =
    Ok {| status_code := 200;
          body := HtmlBody
                    (success_page json_dumps label info
                       (fst (annotation_result splitext_ext env file label))
                       (success_document label
                          (snd (annotation_result splitext_ext env file label))
                          (fst (annotation_result splitext_ext env file label)) info)) |}.
Proof.
  intros Hup Hlabel Hsignal.
  destruct (analyze_stored request file label Hup Hlabel) as [info [Hinfo Hrun]].
  exists info. split; [ exact Hinfo | ].
  now rewrite Hrun, Hsignal.
Qed.

(** C7.  When the classification is exactly the no-plant sentence, the
    route answers 200 with the document whose status is
    "no_plant_detected", whose detection list is empty and whose annotated
    image is null, as a JSON body or inside the no-plant page. *)
Theorem no_plant_sentence_document (request : Request) (file : FileStorage) :
  upload_stored splitext_ext env request file ->
  classified_as splitext_ext cfg env file no_plant_sentence ->
  exists info document,
    get_disease_info (gemini_ready cfg) no_plant_sentence = Ok info /\
    document = no_plant_document no_plant_sentence info /\
    outcome (analyze' request) =
    Ok {| status_code := 200;
          body := if wants_json request
                  then JsonBody document
                  else HtmlBody (no_plant_page json_dumps no_plant_sentence
                                   document) |} /\
    occurs_in (json_dumps document)
      (no_plant_page json_dumps no_plant_sentence document) /\
    dict_get "status" document = Some (JStr "no_plant_detected") /\
    dict_get "detection" document = Some (JList []) /\
    dict_get "annotated_image" document = Some JNull.
Proof.
  intros Hup Hlabel.
  destruct (no_plant_branch request file no_plant_sentence Hup Hlabel eq_refl)
    as [info [Hinfo Hrun]].
  exists info, (no_plant_document no_plant_sentence info).
  split; [ exact Hinfo | ]. split; [ reflexivity | ].
  split; [ exact Hrun | ].
  split; [ apply no_plant_page_carries | ].
  split; [ reflexivity | ]. split; reflexivity.
Qed.

(** C8.  A request without a "file" field is answered 400 with the body
    {"error": "No file uploaded"}; a request whose file has an empty name is
    answered 400 with the body {"error": "Empty filename or no file
    selected"}.  Neither reaches a collaborator. *)
Theorem invalid_upload_rejected (request : Request) :
  (assoc_get "file" (files request) = None ->
   analyze' request =
   (Ok {| status_code := 400;
          body := JsonBody (JDict [("error", JStr "No file uploaded")]) |},
    [])) /\
  (forall file,
     assoc_get "file" (files request) = Some file ->
     filename file = "" ->
     analyze' request =
     (Ok {| status_code := 400;
            body := JsonBody
                      (JDict [("error",
                               JStr "Empty filename or no file selected")]) |},
      [])).
Proof.
  split.
  - intros Hnone. unfold analyze. now rewrite Hnone.
  - intros file Hfile Hname. unfold analyze, file_bool.
    now rewrite Hfile, Hname.
Qed.

(** C9.  When the annotation block raises, whatever the exception, the
    route still answers 200 with the success page; its document has the
    status "success", an empty detection list and a null annotated image,
    and its analysis and recommendations are those of every other outcome
    of the annotation. *)
Theorem annotation_failure_not_fatal (request : Request) (file : FileStorage)
    (label e : string) :
  upload_stored splitext_ext env request file ->
  classified_as splitext_ext cfg env file label ->
  no_plant_signal label = false ->
  outcome (annotate env (stored_path file) (stored_name file) label) = Raise e ->
  exists info document,
    get_disease_info (gemini_ready cfg) label = Ok info /\
    document = success_document label [] None info /\
    outcome (analyze' request) =
    Ok {| status_code := 200;
          body := HtmlBody (success_page json_dumps label info None document) |} /\
    occurs_in (json_dumps document)
      (success_page json_dumps label info None document) /\
    dict_get "status" document = Some (JStr "success") /\
    dict_get "detection" document = Some (JList []) /\
    dict_get "annotated_image" document = Some JNull /\
    dict_get "analysis" document = Some (info_dict info) /\
    dict_get "recommendations" document =
      Some (JList (map JStr (get_recommendations info))) /\
    (forall path detections,
       dict_get "analysis" (success_document label detections path info) =
       dict_get "analysis" document /\
       dict_get "recommendations" (success_document label detections path info) =
       dict_get "recommendations" document).
Proof.
  intros Hup Hlabel Hsignal Hraise.
  destruct (plant_branch request file label Hup Hlabel Hsignal)
    as [info [Hinfo Hrun]].
  exists info, (success_document label [] None info).
  split; [ exact Hinfo | ]. split; [ reflexivity | ].
  split.
  { rewrite Hrun. unfold annotation_result. now rewrite Hraise. }
  split; [ apply success_page_carries | ].
  do 5 (split; [ reflexivity | ]).
  intros path detections. split; reflexivity.
Qed.

(** C10.  The no-plant branch is taken on a substring test: every label
    whose lower-case form contains "no plant" or "cannot provide a
    diagnosis", with or without a colon, is answered with the
    no_plant_detected document. *)
Theorem no_plant_is_substring_test (request : Request) (file : FileStorage)
    (label : string) :
  upload_stored splitext_ext env request file ->
  classified_as splitext_ext cfg env file label ->
  occurs_in "no plant" (PyStr.lower label) \/
  occurs_in "cannot provide a diagnosis" (PyStr.lower label) ->
  exists info document,
    get_disease_info (gemini_ready cfg) label = Ok info /\
    document = no_plant_document label info /\
    outcome (analyze' request) =
    Ok {| status_code := 200;
          body := if wants_json request
                  then JsonBody document
                  else HtmlBody (no_plant_page json_dumps label document) |} /\
    dict_get "status" document = Some (JStr "no_plant_detected") /\
    dict_get "message" document = Some (JStr label) /\
    dict_get "detection" document = Some (JList []) /\
    dict_get "annotated_image" document = Some JNull /\
    dict_get "analysis" document = Some (info_dict info) /\
    dict_get "recommendations" document = None.
Proof.
  intros Hup Hlabel Hsub.
  assert (Hsignal : no_plant_signal label = true).
  { unfold no_plant_signal. apply orb_true_iff.
    destruct Hsub as [H | H]; [ left | right ]; now apply contains_occurs. }
  destruct (no_plant_branch request file label Hup Hlabel Hsignal)
    as [info [Hinfo Hrun]].
  exists info, (no_plant_document label info).
  split; [ exact Hinfo | ]. split; [ reflexivity | ].
  split; [ exact Hrun | ].
  do 5 (split; [ reflexivity | ]). reflexivity.
Qed.

End Route.

(** ** The route on concrete requests *)

Lemma leaf_upload_stored (json_text : option string) (request : Request) :
  assoc_get "file" (files request) = Some leaf_file ->
  upload_stored ext_after_dot (env_answering json_text) request leaf_file /\
  upload_stored ext_after_dot (env_unreadable json_text) request leaf_file.
Proof.
  intros H. split; (split; [ exact H | ]);
    (split; [ discriminate | split; reflexivity ]).
Qed.

(** C1 fails on the code: a plant image sent with [format=json] and
    [Accept: application/json] is answered with the HTML page; only the
    no-plant branch looks at the requested representation. *)
Theorem json_request_for_plant_gets_page :
  wants_json request_json = true /\
  no_plant_signal "Tomato : healthy" = false /\
  classified_as ext_after_dot configured (env_answering (Some "Tomato : healthy"))
    leaf_file "Tomato : healthy" /\
  exists html,
    outcome (analyze dumps_braces ext_after_dot configured
               (env_answering (Some "Tomato : healthy")) request_json) =
    Ok {| status_code := 200; body := HtmlBody html |} /\
    outcome (analyze dumps_braces ext_after_dot configured
               (env_answering (Some "Tomato : healthy")) request_plain) =
    Ok {| status_code := 200; body := HtmlBody html |}.
Proof.
  split; [ reflexivity | ]. split; [ reflexivity | ]. split; [ reflexivity | ].
  eexists. split; vm_compute; reflexivity.
Qed.

Lemma no_plant_sentence_document_witness :
  exists info,
    outcome (analyze dumps_braces ext_after_dot configured
               (env_answering (Some no_plant_sentence)) request_json) =
    Ok {| status_code := 200;
          body := JsonBody (no_plant_document no_plant_sentence info) |} /\
    dict_get "status" (no_plant_document no_plant_sentence info) =
      Some (JStr "no_plant_detected").
Proof.
  destruct (no_plant_sentence_document dumps_braces ext_after_dot configured
              (env_answering (Some no_plant_sentence)) request_json leaf_file)
    as [info [document [_ [-> [Hrun [_ [Hstatus _]]]]]]].
  - apply (leaf_upload_stored (Some no_plant_sentence) request_json). reflexivity.
  - reflexivity.
  - exists info. split; [ exact Hrun | exact Hstatus ].
Defined.

Lemma invalid_upload_rejected_witness :
  outcome (analyze dumps_braces ext_after_dot configured
             (env_answering None) request_without_file) =
  Ok {| status_code := 400;
        body := JsonBody (JDict [("error", JStr "No file uploaded")]) |} /\
  outcome (analyze dumps_braces ext_after_dot configured
             (env_answering None) request_unnamed_file) =
  Ok {| status_code := 400;
        body := JsonBody
                  (JDict [("error", JStr "Empty filename or no file selected")]) |}.
Proof.
  split.
  - destruct (invalid_upload_rejected dumps_braces ext_after_dot configured
                (env_answering None) request_without_file) as [Hnone _].
    now rewrite (Hnone eq_refl).
  - destruct (invalid_upload_rejected dumps_braces ext_after_dot configured
                (env_answering None) request_unnamed_file) as [_ Hempty].
    now rewrite (Hempty unnamed_file eq_refl eq_refl).
Defined.

Lemma annotation_failure_not_fatal_witness :
  exists info,
    outcome (analyze dumps_braces ext_after_dot configured
               (env_unreadable (Some "Tomato : Late_blight")) request_plain) =
    Ok {| status_code := 200;
          body := HtmlBody
                    (success_page dumps_braces "Tomato : Late_blight" info None
                       (success_document "Tomato : Late_blight" [] None info)) |}.
Proof.
  destruct (annotation_failure_not_fatal dumps_braces ext_after_dot configured
              (env_unreadable (Some "Tomato : Late_blight")) request_plain
              leaf_file "Tomato : Late_blight" "Could not read image file")
    as [info [document [_ [-> [Hrun _]]]]].
  - apply (leaf_upload_stored (Some "Tomato : Late_blight") request_plain).
    reflexivity.
  - reflexivity.
  - reflexivity.
  - reflexivity.
  - exists info. exact Hrun.
Defined.

Lemma no_plant_is_substring_test_witness :
  exists info,
    outcome (analyze dumps_braces ext_after_dot configured
               (env_answering (Some "Tomato : No plant disease visible"))
               request_json) =
    Ok {| status_code := 200;
          body := JsonBody
                    (no_plant_document "Tomato : No plant disease visible" info) |} /\
    plant_type info = "Tomato".
Proof.
  destruct (no_plant_is_substring_test dumps_braces ext_after_dot configured
              (env_answering (Some "Tomato : No plant disease visible"))
              request_json leaf_file "Tomato : No plant disease visible")
    as [info [document [Hinfo [-> [Hrun _]]]]].
  - apply (leaf_upload_stored (Some "Tomato : No plant disease visible")
             request_json). reflexivity.
  - reflexivity.
  - left. now exists "tomato : ", " disease visible".
  - exists info. split; [ exact Hrun | ].
    vm_compute in Hinfo. injection Hinfo as <-. reflexivity.
Defined.


(** * Further properties *)

(** ** Calls of composed computations *)

Section Calls.
Context {A B : Type}.

Lemma calls_ret (a : A) : calls (ret a) = [].
Proof. reflexivity. Qed.

Lemma calls_raise (msg : string) : calls (@raise A msg) = [].
Proof. reflexivity. Qed.

Lemma calls_call (ev : event) (r : result A) : calls (call ev r) = [ev].
Proof. reflexivity. Qed.

Lemma calls_lift (r : result A) : calls (lift r) = [].
Proof. reflexivity. Qed.

Lemma calls_bind (m : M A) (k : A -> M B) :
  calls (bind m k) =
  (calls m ++ match outcome m with
              | Ok a => calls (k a)
              | Raise _ => []
              end)%list.
Proof.
  destruct m as [[a | msg] t]; simpl.
  - destruct (k a); reflexivity.
  - now rewrite app_nil_r.
Qed.

Lemma calls_try_catch (m : M A) (handler : string -> M A) :
  calls (try_catch m handler) =
  (calls m ++ match outcome m with
              | Ok _ => []
              | Raise msg => calls (handler msg)
              end)%list.
Proof.
  destruct m as [[a | msg] t]; simpl.
  - now rewrite app_nil_r.
  - destruct (handler msg); reflexivity.
Qed.

Lemma run_pair (m : M A) : m = (outcome m, calls m).
Proof. now destruct m. Qed.

End Calls.

(** ** The classifier client, further *)

Lemma first_line_no_leading_space (text line : string) (rest : list string) :
  PyStr.splitlines (PyStr.strip text) = line :: rest ->
  head_space line = false /\ no_break line = true.
Proof.
  intros H. split.
  - destruct (strip_trimmed text) as [l [r [_ [_ [_ [Hh _]]]]]].
    destruct (PyStr.strip text) as [ | c u]; [ discriminate | ].
    simpl in Hh.
    assert (Hc : PyStr.islinebreak c = false).
    { destruct (PyStr.islinebreak c) eqn:Hc; [ | reflexivity ].
      apply linebreak_isspace in Hc. congruence. }
    rewrite (splitlines_cons c u Hc) in H.
    destruct (PyStr.splitlines u); injection H as <- _; exact Hh.
  - destruct (splitlines_first_line _ _ _ H) as [tail [_ [Hn _]]]. exact Hn.
Qed.

(** One run of the client: the label and the calls. *)
Lemma classify_run (cfg : Config) (env : Env) (image_path : string) :
  exists label called,
    classify_with_gemini cfg env image_path = (Ok label, called) /\
    no_break label = true /\ head_space label = false /\
    (called = [] \/
     called = [PIL_open image_path] \/
     called = [PIL_open image_path; Gemini_generate_content image_path]) /\
    (In (Gemini_generate_content image_path) called ->
     gemini_ready cfg = true /\ image_open env image_path = Ok tt).
Proof.
  unfold classify_with_gemini.
  destruct (gemini_ready cfg); cbn [negb].
  2:{ exists "unknown", []. split; [ reflexivity | ].
      split; [ reflexivity | ]. split; [ reflexivity | ].
      split; [ now left | intros [] ]. }
  destruct (image_open env image_path) as [[] | e0].
  2:{ exists "unknown", [PIL_open image_path]. split; [ reflexivity | ].
      split; [ reflexivity | ]. split; [ reflexivity | ].
      split; [ right; now left | ]. intros [H | []]. discriminate H. }
  assert (Hshape : forall label,
            no_break label = true -> head_space label = false ->
            no_break label = true /\ head_space label = false /\
            ([PIL_open image_path; Gemini_generate_content image_path] = [] \/
             [PIL_open image_path; Gemini_generate_content image_path]
               = [PIL_open image_path] \/
             [PIL_open image_path; Gemini_generate_content image_path]
               = [PIL_open image_path; Gemini_generate_content image_path]) /\
            (In (Gemini_generate_content image_path)
                [PIL_open image_path; Gemini_generate_content image_path] ->
             true = true /\ @Ok unit tt = Ok tt)).
  { intros label Hn Hh. split; [ exact Hn | ]. split; [ exact Hh | ].
    split; [ right; now right | intros _; now split ]. }
  destruct (generate_content env image_path) as [[text | ] | e1].
  - destruct (PyStr.splitlines (PyStr.strip text)) as [ | line rest] eqn:Hlines.
    + exists "unknown", [PIL_open image_path; Gemini_generate_content image_path].
      split; [ cbn; rewrite Hlines; reflexivity | now apply Hshape ].
    + destruct (first_line_no_leading_space text line rest Hlines) as [Hh Hn].
      exists line, [PIL_open image_path; Gemini_generate_content image_path].
      split; [ cbn; rewrite Hlines; reflexivity | now apply Hshape ].
  - exists "unknown", [PIL_open image_path; Gemini_generate_content image_path].
    split; [ reflexivity | now apply Hshape ].
  - exists "unknown", [PIL_open image_path; Gemini_generate_content image_path].
    split; [ reflexivity | now apply Hshape ].
Qed.


Lemma classify_calls_are_classifier_events (cfg : Config) (env : Env)
    (image_path : string) :
  Forall (fun ev => classifier_event ev = true /\ cv2_event ev = false)
         (calls (classify_with_gemini cfg env image_path)).
Proof.
  destruct (classify_run cfg env image_path)
    as [label [called [-> [_ [_ [[-> | [-> | ->]] _]]]]]];
    repeat constructor.
Qed.


(** ** The annotation stage *)

(** Evaluation of the monad's operations, leaving arithmetic alone. *)
Ltac crunch :=
  cbv beta iota zeta
      delta [bind call ret raise lift try_catch outcome calls fst snd app].

(** One run of the annotation block: it raises, or it returns the path of
    the copy and one detection; every call it makes is an OpenCV call. *)
Lemma annotate_run (env : Env) (filepath unique_filename label : string) :
  ((exists e, outcome (annotate env filepath unique_filename label) = Raise e) \/
   (exists h w tw th baseline,
      cv2_imread env filepath = Ok (Some (h, w)) /\
      cv2_getTextSize env label = Ok (tw, th, baseline) /\
      annotate env filepath unique_filename label =
      (Ok (Some ("/uploads/" ++ "result_" ++ unique_filename),
           [inset_detection h w label]),
       annotation_calls filepath unique_filename label h w tw th))) /\
  Forall (fun ev => cv2_event ev = true /\ classifier_event ev = false)
         (calls (annotate env filepath unique_filename label)).
Proof.
  unfold annotate. crunch.
  destruct (cv2_import env) as [[] | e0]; cbv beta iota zeta;
    [ | split; [ left; eexists; reflexivity | repeat constructor ] ].
  destruct (cv2_imread env filepath) as [[[h w] | ] | e1]; cbv beta iota zeta;
    [ | split; [ left; eexists; reflexivity | repeat constructor ] .. ].
  destruct (cv2_rectangle env (20, 20)%Z (w - 20, h - 20)%Z) as [[] | e2];
    cbv beta iota zeta;
    [ | split; [ left; eexists; reflexivity | repeat constructor ] ].
  destruct (cv2_getTextSize env label) as [[[tw th] baseline] | e3];
    cbv beta iota zeta;
    [ | split; [ left; eexists; reflexivity | repeat constructor ] ].
  destruct (cv2_rectangle env (20, 20 - th - 10)%Z (20 + tw + 10, 20)%Z)
    as [[] | e4]; cbv beta iota zeta;
    [ | split; [ left; eexists; reflexivity | repeat constructor ] ].
  destruct (cv2_putText env label (20 + 5, 20 - 5)%Z) as [[] | e5];
    cbv beta iota zeta;
    [ | split; [ left; eexists; reflexivity | repeat constructor ] ].
  destruct (cv2_imwrite env (os_path_join UPLOAD_FOLDER ("result_" ++ unique_filename)))
    as [[] | e6]; cbv beta iota zeta;
    [ | split; [ left; eexists; reflexivity | repeat constructor ] ].
  split.
  - right. exists h, w, tw, th, baseline.
    split; [ reflexivity | ]. split; [ reflexivity | ]. reflexivity.
  - repeat constructor.
Qed.

(** X2.  The annotation stage never raises, and it is all or nothing: it
    leaves no path and no detection, or it leaves the path
    "/uploads/result_<name>" together with exactly one detection, the image
    inset by 20 on every side and labelled with the classification.  So in
    the response document the annotated image is null exactly when the
    detection list is empty. *)
Theorem annotation_all_or_nothing (env : Env)
    (filepath unique_filename label : string) :
  exists r,
    outcome (annotation env filepath unique_filename label) = Ok r /\
    (r = (None, []) \/
     exists h w,
       cv2_imread env filepath = Ok (Some (h, w)) /\
       r = (Some ("/uploads/" ++ "result_" ++ unique_filename),
            [inset_detection h w label])) /\
    (forall info,
       dict_get "annotated_image" (success_document label (snd r) (fst r) info)
         = Some JNull <->
       dict_get "detection" (success_document label (snd r) (fst r) info)
         = Some (JList [])).
Proof.
  unfold annotation. rewrite outcome_try_catch.
  destruct (annotate_run env filepath unique_filename label) as [Hrun _].
  destruct Hrun as [[e He] | [h [w [tw [th [bl [Hread [_ Hok]]]]]]]].
  - rewrite He. exists (None, []). split; [ reflexivity | ].
    split; [ now left | ]. intros info. split; reflexivity.
  - rewrite Hok. cbn [outcome fst].
    eexists. split; [ reflexivity | ]. split.
    + right. exists h, w. split; [ exact Hread | reflexivity ].
    + intros info. cbn [fst snd]. split; intros H; discriminate H.
Qed.

(** X3.  The annotated copy is written to another path than the stored
    upload, whatever the name: the annotation cannot overwrite the file it
    reads. *)
Theorem annotated_copy_is_another_file (splitext_ext : string -> string)
    (env : Env) (file : FileStorage) :
  os_path_join UPLOAD_FOLDER ("result_" ++ unique_filename_of splitext_ext env file)
  <> filepath_of splitext_ext env file.
Proof.
  unfold filepath_of. generalize (unique_filename_of splitext_ext env file).
  intros name. unfold os_path_join, UPLOAD_FOLDER.
  change (prefix "/" ("result_" ++ name)) with false.
  change (("uploads" =? "") || ends_with_slash "uploads") with false.
  cbv iota. destruct (prefix "/" name) eqn:Hp.
  - apply prefix_app in Hp as [post ->]. discriminate.
  - intros H. apply (f_equal String.length) in H. simpl in H. lia.
Qed.

(** ** The result interpreter, further *)

Lemma contains_colon_append (x y : string) :
  PyStr.contains ":" (x ++ y) = PyStr.contains ":" x || PyStr.contains ":" y.
Proof.
  induction x as [ | c x IH].
  - reflexivity.
  - cbn [append]. rewrite !contains_colon_cons, IH. apply orb_assoc.
Qed.




(** X5.  The severity is one of Healthy, High, Medium, "Low to Medium" and
    Unknown, and it is Unknown exactly for the labels without a colon; the
    confidence is High or Low. *)
Theorem severity_unknown_iff_no_colon (ready : bool) (s : string) :
  exists info,
    get_disease_info ready s = Ok info /\
    In (severity_level info)
       ["Healthy"; "High"; "Medium"; "Low to Medium"; "Unknown"] /\
    (severity_level info = "Unknown" <-> ~ occurs_in ":" s) /\
    In (confidence info) ["High"; "Low"].
Proof.
  destruct (PyStr.contains ":" s) eqn:Hs.
  - destruct (first_colon s Hs) as [a [b [-> Ha]]].
    rewrite (get_disease_info_at_colon ready a b Ha).
    eexists. split; [ reflexivity | ]. cbn [severity_level confidence].
    assert (Hocc : occurs_in ":" (a ++ ":" ++ b)) by now exists a, b.
    destruct (PyStr.lower (PyStr.strip b) =? "healthy");
      [ | destruct (any_in high_words (PyStr.lower (PyStr.strip b)));
          [ | destruct (any_in medium_words (PyStr.lower (PyStr.strip b))) ] ];
      (split; [ simpl; tauto | ]);
      (split; [ split; [ discriminate | tauto ] | ]);
      destruct ready; simpl; tauto.
  - rewrite (get_disease_info_no_colon ready s Hs).
    apply contains_absent in Hs.
    eexists. split; [ reflexivity | ]. cbn [severity_level confidence].
    split; [ simpl; tauto | ]. split; [ tauto | simpl; tauto ].
Qed.

Lemma recommendations_healthy_iff (info : DiseaseInfo) :
  get_recommendations info = healthy_advice <->
  PyStr.lower (disease_name info) = "healthy".
Proof.
  unfold get_recommendations. cbv zeta.
  destruct (String.eqb_spec (PyStr.lower (disease_name info)) "healthy")
    as [Hd | Hd]; [ tauto | ].
  split; [ | tauto ].
  destruct (PyStr.contains "blight" _); [ discriminate | ].
  destruct (PyStr.contains "spot" _ || PyStr.contains "rust" _);
    [ discriminate | ].
  destruct (PyStr.contains "wilt" _); discriminate.
Qed.

(** X6.  The interpreter and the generator agree on health: a record with
    the severity Healthy gets the healthy advice, and for a label with a
    colon the healthy advice is given only with the severity Healthy.  A
    label without a colon that reads "healthy" gets the healthy advice with
    the severity Unknown. *)
Theorem healthy_severity_and_advice_agree (ready : bool) (s : string) :
  exists info,
    get_disease_info ready s = Ok info /\
    (severity_level info = "Healthy" ->
     get_recommendations info = healthy_advice) /\
    (occurs_in ":" s -> get_recommendations info = healthy_advice ->
     severity_level info = "Healthy") /\
    (~ occurs_in ":" s -> PyStr.lower s = "healthy" ->
     severity_level info = "Unknown" /\
     get_recommendations info = healthy_advice).
Proof.
  destruct (PyStr.contains ":" s) eqn:Hs.
  - destruct (first_colon s Hs) as [a [b [-> Ha]]].
    rewrite (get_disease_info_at_colon ready a b Ha).
    eexists. split; [ reflexivity | ].
    rewrite recommendations_healthy_iff. cbn [severity_level disease_name].
    destruct (String.eqb_spec (PyStr.lower (PyStr.strip b)) "healthy")
      as [Hd | Hd].
    + split; [ tauto | split; [ tauto | ] ].
      intros Hno. exfalso. apply Hno. now exists a, b.
    + split; [ | split; [ tauto | ] ].
      * destruct (any_in high_words _); [ discriminate | ].
        destruct (any_in medium_words _); discriminate.
      * intros H. exfalso. apply H. now exists a, b.
  - rewrite (get_disease_info_no_colon ready s Hs).
    apply contains_absent in Hs.
    eexists. split; [ reflexivity | ].
    rewrite recommendations_healthy_iff. cbn [severity_level disease_name].
    split; [ discriminate | ]. split; [ tauto | ]. intros _ H. now split.
Qed.

Lemma healthy_severity_and_advice_agree_witness :
  (exists info,
     get_disease_info true "Tomato : healthy" = Ok info /\
     get_recommendations info = healthy_advice) /\
  (exists info,
     get_disease_info true "Healthy" = Ok info /\
     severity_level info = "Unknown" /\
     get_recommendations info = healthy_advice).
Proof.
  split.
  - destruct (healthy_severity_and_advice_agree true "Tomato : healthy")
      as [info [Hinfo [Hsev _]]].
    exists info. split; [ exact Hinfo | ]. apply Hsev.
    vm_compute in Hinfo. injection Hinfo as <-. reflexivity.
  - destruct (healthy_severity_and_advice_agree true "Healthy")
      as [info [Hinfo [_ [_ Hraw]]]].
    exists info. split; [ exact Hinfo | ]. apply Hraw.
    + apply contains_absent. reflexivity.
    + reflexivity.
Defined.



(** ** The requested representation *)

Lemma lower_append (a b : string) :
  PyStr.lower (a ++ b) = PyStr.lower a ++ PyStr.lower b.
Proof. induction a as [ | c a IH]; simpl; congruence. Qed.

(** X8.  The test for a JSON preference ignores letter case in the name of
    the Accept header and in its value: a request whose first header is an
    Accept header, in any letter case, with a value that holds
    application/json, in any letter case, asks for JSON. *)
Theorem accept_header_is_case_insensitive (request : Request)
    (name value pre media post : string) (others : list (string * string)) :
  headers request = (name, value) :: others ->
  PyStr.lower name = "accept" ->
  value = pre ++ media ++ post ->
  PyStr.lower media = "application/json" ->
  wants_json request = true.
Proof.
  intros Hheaders Hname -> Hmedia. unfold wants_json.
  apply orb_true_iff. right. unfold PyStr.found.
  rewrite Hheaders. cbn [headers_get]. rewrite Hname. cbn [PyStr.lower].
  change (PyStr.lower "Accept") with "accept". rewrite String.eqb_refl.
  apply contains_occurs.
  exists (PyStr.lower pre), (PyStr.lower post).
  now rewrite !lower_append, Hmedia.
Qed.

Lemma accept_header_is_case_insensitive_witness :
  wants_json {| files := []; args := [];
                headers := [("ACCEPT", "text/html, Application/JSON;q=0.9")] |}
  = true.
Proof.
  apply (accept_header_is_case_insensitive _ "ACCEPT"
           "text/html, Application/JSON;q=0.9" "text/html, "
           "Application/JSON" ";q=0.9" []); reflexivity.
Defined.

(** ** The analyze route, further *)

Section RouteRuns.

Variable json_dumps : json -> string.
Variable splitext_ext : string -> string.
Variable cfg : Config.
Variable env : Env.

#[local] Abbreviation analyze' := (analyze json_dumps splitext_ext cfg env).
#[local] Abbreviation stored_path := (filepath_of splitext_ext env).
#[local] Abbreviation stored_name := (unique_filename_of splitext_ext env).

(** One run of the route after a stored upload: the answer and the calls. *)
Lemma analyze_stored_run (request : Request) (file : FileStorage)
    (label : string) (called : list event) :
  upload_stored splitext_ext env request file ->
  classify_with_gemini cfg env (stored_path file) = (Ok label, called) ->
  exists info,
    get_disease_info (gemini_ready cfg) label = Ok info /\
    analyze' request =
    (Ok (if no_plant_signal label
         then no_plant_response json_dumps request label info
         else success_response json_dumps label info
                (fst (annotation_result splitext_ext env file label))
                (snd (annotation_result splitext_ext env file label))),
     ([File_save (stored_path file); Path_exists (stored_path file)]
      ++ called
      ++ (if no_plant_signal label then []
          else calls (annotate env (stored_path file) (stored_name file) label)))%list).
Proof.
  intros [Hfile [Hname [Hsave Hexists]]] Hcl.
  destruct (classify_with_gemini_label cfg env (stored_path file))
    as [label' [called' [Hcl' Hne]]].
  rewrite Hcl in Hcl'. injection Hcl' as <- <-.
  destruct (get_disease_info_total (gemini_ready cfg) label) as [info Hinfo].
  exists info. split; [ exact Hinfo | ].
  assert (Hor : str_or label "unknown" = label).
  { unfold str_or. apply String.eqb_neq in Hne. now rewrite Hne. }
  unfold analyze, annotation_result, annotation.
  rewrite Hfile, (named_file_passes file Hname). cbv zeta.
  rewrite Hsave, Hexists, Hcl.
  cbv beta iota zeta
      delta [bind call ret raise lift try_catch outcome calls fst snd].
  cbn [negb]. cbv iota.
  rewrite Hor, Hinfo. cbv iota.
  destruct (no_plant_signal label).
  - now rewrite !app_nil_r.
  - destruct (annotate env (stored_path file) (stored_name file) label)
      as [[[path dets] | e] acalls]; cbv iota beta;
      now rewrite !app_nil_r.
Qed.

Lemma unit_result (r : result unit) : r = Ok tt \/ exists e, r = Raise e.
Proof. destruct r as [[] | e]; eauto. Qed.

Lemma unsaved_upload_aux (request : Request) (file : FileStorage) :
  assoc_get "file" (files request) = Some file ->
  filename file <> "" ->
  file_save env (stored_path file) (stream file) = Ok tt ->
  path_exists env (stored_path file) = false ->
  analyze' request =
  (Ok (error_response 500 "Failed to save uploaded file"),
   [File_save (stored_path file); Path_exists (stored_path file)]).
Proof.
  intros Hfile Hname Hsave Hexists. unfold analyze.
  rewrite Hfile, (named_file_passes file Hname). cbv zeta.
  now rewrite Hsave, Hexists.
Qed.

Lemma failed_save_is_reported_aux (request : Request) (file : FileStorage)
    (e : string) :
  assoc_get "file" (files request) = Some file ->
  filename file <> "" ->
  file_save env (stored_path file) (stream file) = Raise e ->
  analyze' request =
  (Ok {| status_code := 500;
         body := JsonBody (JDict [ ("error", JStr "Internal server error");
                                   ("detail", JStr e) ]) |},
   [File_save (stored_path file)]).
Proof.
  intros Hfile Hname Hsave. unfold analyze.
  rewrite Hfile, (named_file_passes file Hname). cbv zeta.
  now rewrite Hsave.
Qed.

(** X9.  When the upload was saved without an exception but is not on disk
    afterwards, the route answers 500 with the body {"error": "Failed to
    save uploaded file"}; the classifier and OpenCV are not called. *)
Theorem unsaved_upload_is_server_error (request : Request) (file : FileStorage) :
  assoc_get "file" (files request) = Some file ->
  filename file <> "" ->
  file_save env (stored_path file) (stream file) = Ok tt ->
  path_exists env (stored_path file) = false ->
  analyze' request =
  (Ok {| status_code := 500;
         body := JsonBody (JDict [("error", JStr "Failed to save uploaded file")]) |},
   [File_save (stored_path file); Path_exists (stored_path file)]).
Proof. exact (unsaved_upload_aux request file). Qed.

(** X10.  When saving the upload raises, the outermost handler answers 500
    with the body {"error": "Internal server error", "detail": <message of
    the exception>}; nothing is called after the failed save. *)
Theorem failed_save_is_reported (request : Request) (file : FileStorage)
    (e : string) :
  assoc_get "file" (files request) = Some file ->
  filename file <> "" ->
  file_save env (stored_path file) (stream file) = Raise e ->
  analyze' request =
  (Ok {| status_code := 500;
         body := JsonBody (JDict [ ("error", JStr "Internal server error");
                                   ("detail", JStr e) ]) |},
   [File_save (stored_path file)]).
Proof. exact (failed_save_is_reported_aux request file e). Qed.

(** The five ways through the route. *)
Lemma analyze_cases (request : Request) :
  (assoc_get "file" (files request) = None /\
   analyze' request = (Ok (error_response 400 "No file uploaded"), [])) \/
  (exists file,
     assoc_get "file" (files request) = Some file /\
     ((filename file = "" /\
       analyze' request =
       (Ok (error_response 400 "Empty filename or no file selected"), [])) \/
      (filename file <> "" /\
       ((exists e,
           file_save env (stored_path file) (stream file) = Raise e /\
           analyze' request =
           (Ok {| status_code := 500;
                  body := JsonBody
                            (JDict [ ("error", JStr "Internal server error");
                                     ("detail", JStr e) ]) |},
            [File_save (stored_path file)])) \/
        (file_save env (stored_path file) (stream file) = Ok tt /\
         path_exists env (stored_path file) = false /\
         analyze' request =
         (Ok (error_response 500 "Failed to save uploaded file"),
          [File_save (stored_path file); Path_exists (stored_path file)])) \/
        (upload_stored splitext_ext env request file /\
         exists label called info,
           classify_with_gemini cfg env (stored_path file) = (Ok label, called) /\
           get_disease_info (gemini_ready cfg) label = Ok info /\
           analyze' request =
           (Ok (if no_plant_signal label
                then no_plant_response json_dumps request label info
                else success_response json_dumps label info
                       (fst (annotation_result splitext_ext env file label))
                       (snd (annotation_result splitext_ext env file label))),
            ([File_save (stored_path file); Path_exists (stored_path file)]
             ++ called
             ++ (if no_plant_signal label then []
                 else calls (annotate env (stored_path file)
                               (stored_name file) label)))%list)))))).
Proof.
  destruct (assoc_get "file" (files request)) as [file | ] eqn:Hfile.
  2:{ left. split; [ reflexivity | ]. unfold analyze. now rewrite Hfile. }
  right. exists file. split; [ reflexivity | ].
  destruct (String.eqb_spec (filename file) "") as [Hname | Hname].
  { left. split; [ exact Hname | ]. unfold analyze, file_bool.
    now rewrite Hfile, Hname. }
  right. split; [ exact Hname | ].
  destruct (unit_result (file_save env (stored_path file) (stream file)))
    as [Hsave | [e Hsave]].
  2:{ left. exists e. split; [ exact Hsave | ].
      now apply failed_save_is_reported_aux. }
  right. destruct (path_exists env (stored_path file)) eqn:Hexists.
  2:{ left. split; [ exact Hsave | ]. split; [ reflexivity | ].
      now apply unsaved_upload_aux. }
  right.
  assert (Hup : upload_stored splitext_ext env request file)
    by (repeat split; assumption).
  split; [ exact Hup | ].
  destruct (classify_with_gemini_label cfg env (stored_path file))
    as [label [called [Hcl _]]].
  destruct (analyze_stored_run request file label called Hup Hcl)
    as [info [Hinfo Hrun]].
  exists label, called, info. auto.
Qed.

(** X11.  The route always answers, with the status 200, 400 or 500.  It
    is 200 exactly when the request carries a named file that was saved and
    is on disk, and 400 exactly when the "file" field is missing or its file
    has an empty name.  Every answer other than 200 is a JSON object with an
    "error" entry. *)
Theorem analyze_status (request : Request) :
  exists response,
    outcome (analyze' request) = Ok response /\
    (status_code response = 200 \/ status_code response = 400 \/
     status_code response = 500)%Z /\
    (status_code response = 200%Z <->
     exists file, upload_stored splitext_ext env request file) /\
    (status_code response = 400%Z <->
     assoc_get "file" (files request) = None \/
     exists file, assoc_get "file" (files request) = Some file /\
                  filename file = "") /\
    (status_code response <> 200%Z ->
     exists message others,
       body response = JsonBody (JDict (("error", JStr message) :: others))).
Proof.
  destruct (analyze_cases request)
    as [[Hnone ->]
       | [file [Hfile [[Hname ->]
                      | [Hname [[e [Hsave ->]]
                               | [[Hsave [Hexists ->]]
                                 | [Hup [label [called [info [_ [_ ->]]]]]]]]]]]]].
  - eexists. split; [ reflexivity | ]. cbn [status_code body error_response].
    split; [ auto | ]. split; [ | split; [ | eauto ] ].
    + split; [ discriminate | ]. intros [file [Hfile _]]. congruence.
    + split; auto.
  - eexists. split; [ reflexivity | ]. cbn [status_code body error_response].
    split; [ auto | ]. split; [ | split; [ | eauto ] ].
    + split; [ discriminate | ].
      intros [file' [Hfile' [Hname' _]]].
      rewrite Hfile in Hfile'. injection Hfile' as <-. contradiction.
    + split; eauto.
  - eexists. split; [ reflexivity | ]. cbn [status_code body].
    split; [ auto | ]. split; [ | split; [ | eauto ] ].
    + split; [ discriminate | ].
      intros [file' [Hfile' [_ [Hsave' _]]]].
      rewrite Hfile in Hfile'. injection Hfile' as <-. congruence.
    + split; [ discriminate | ].
      intros [Hnone | [file' [Hfile' Hname']]]; [ congruence | ].
      rewrite Hfile in Hfile'. injection Hfile' as <-. contradiction.
  - eexists. split; [ reflexivity | ]. cbn [status_code body error_response].
    split; [ auto | ]. split; [ | split; [ | eauto ] ].
    + split; [ discriminate | ].
      intros [file' [Hfile' [_ [_ Hexists']]]].
      rewrite Hfile in Hfile'. injection Hfile' as <-. congruence.
    + split; [ discriminate | ].
      intros [Hnone | [file' [Hfile' Hname']]]; [ congruence | ].
      rewrite Hfile in Hfile'. injection Hfile' as <-. contradiction.
  - eexists. split; [ reflexivity | ].
    assert (H200 : status_code
              (if no_plant_signal label
               then no_plant_response json_dumps request label info
               else success_response json_dumps label info
                      (fst (annotation_result splitext_ext env file label))
                      (snd (annotation_result splitext_ext env file label)))
            = 200%Z).
    { unfold no_plant_response, success_response.
      destruct (no_plant_signal label); [ | reflexivity ].
      now destruct (wants_json request). }
    rewrite H200.
    split; [ auto | ]. split; [ | split; [ | congruence ] ].
    + split; eauto.
    + split; [ discriminate | ].
      intros [Hnone | [file' [Hfile' Hname']]]; [ congruence | ].
      rewrite Hfile in Hfile'. injection Hfile' as <-. contradiction.
Qed.

(** X12.  With a blank API key, as in the published source, every stored
    upload is answered 200 with the success page for the label "unknown":
    plant type Unknown, severity Unknown, confidence Low and the fallback
    advice.  Neither the image library nor the model is called; the only
    calls after the save are those of the annotation. *)
Theorem blank_key_answers_unknown (request : Request) (file : FileStorage) :
  GOOGLE_API_KEY cfg = "" ->
  upload_stored splitext_ext env request file ->
  analyze' request =
  (Ok (success_response json_dumps "unknown" (uninterpreted "unknown")
         (fst (annotation_result splitext_ext env file "unknown"))
         (snd (annotation_result splitext_ext env file "unknown"))),
   ([File_save (stored_path file); Path_exists (stored_path file)]
    ++ calls (annotate env (stored_path file) (stored_name file) "unknown"))%list) /\
  get_recommendations (uninterpreted "unknown") = fallback_advice /\
  Forall (fun ev => classifier_event ev = false) (calls (analyze' request)).
Proof.
  intros Hkey Hup.
  assert (Hready : gemini_ready cfg = false).
  { unfold gemini_ready. now rewrite Hkey. }
  assert (Hcl : classify_with_gemini cfg env (stored_path file)
                = (Ok "unknown", [])).
  { unfold classify_with_gemini. now rewrite Hready. }
  destruct (analyze_stored_run request file "unknown" [] Hup Hcl)
    as [info [Hinfo Hrun]].
  rewrite Hready in Hinfo. injection Hinfo as <-.
  change (no_plant_signal "unknown") with false in Hrun. cbv iota in Hrun.
  rewrite Hrun. split; [ reflexivity | ]. split; [ reflexivity | ].
  cbn [calls snd app].
  do 2 (constructor; [ reflexivity | ]).
  destruct (annotate_run env (stored_path file) (stored_name file) "unknown")
    as [_ Hcv].
  eapply Forall_impl; [ | exact Hcv ]. intros ev [_ H]. exact H.
Qed.

(** X13.  In the no-plant branch OpenCV is never called: after the save the
    only calls are those of the classifier client, so no annotated copy is
    written. *)
Theorem no_plant_branch_draws_nothing (request : Request) (file : FileStorage)
    (label : string) :
  upload_stored splitext_ext env request file ->
  classified_as splitext_ext cfg env file label ->
  no_plant_signal label = true ->
  calls (analyze' request) =
    ([File_save (stored_path file); Path_exists (stored_path file)]
     ++ calls (classify_with_gemini cfg env (stored_path file)))%list /\
  Forall (fun ev => cv2_event ev = false) (calls (analyze' request)).
Proof.
  intros Hup Hlabel Hsignal. unfold classified_as in Hlabel.
  destruct (classify_with_gemini cfg env (stored_path file))
    as [r called] eqn:Hcl.
  cbn [outcome fst] in Hlabel. subst r.
  destruct (analyze_stored_run request file label called Hup Hcl)
    as [info [_ Hrun]].
  rewrite Hsignal in Hrun. rewrite Hrun. cbn [calls snd].
  rewrite app_nil_r. split; [ reflexivity | ].
  cbn [app]. do 2 (constructor; [ reflexivity | ]).
  pose proof (classify_calls_are_classifier_events cfg env (stored_path file))
    as Hcalls.
  rewrite Hcl in Hcalls. cbn [calls snd] in Hcalls.
  eapply Forall_impl; [ | exact Hcalls ]. intros ev [_ H]. exact H.
Qed.

(** X14.  The whole pipeline on a plant image that OpenCV reads and
    writes: the calls are the save, the existence test, the classifier
    client's calls and then the seven OpenCV calls, in this order, and the
    document of the page names the copy "/uploads/result_<name>" and holds
    the one detection inset by 20. *)
Theorem plant_pipeline (request : Request) (file : FileStorage)
    (label : string) (h w tw th baseline : Z) :
  upload_stored splitext_ext env request file ->
  classified_as splitext_ext cfg env file label ->
  no_plant_signal label = false ->
  cv2_import env = Ok tt ->
  cv2_imread env (stored_path file) = Ok (Some (h, w)) ->
  cv2_rectangle env (20, 20)%Z (w - 20, h - 20)%Z = Ok tt ->
  cv2_getTextSize env label = Ok (tw, th, baseline) ->
  cv2_rectangle env (20, 20 - th - 10)%Z (20 + tw + 10, 20)%Z = Ok tt ->
  cv2_putText env label (20 + 5, 20 - 5)%Z = Ok tt ->
  cv2_imwrite env (os_path_join UPLOAD_FOLDER ("result_" ++ stored_name file))
    = Ok tt ->
  exists info document,
    get_disease_info (gemini_ready cfg) label = Ok info /\
    document =
      success_document label [inset_detection h w label]
        (Some ("/uploads/" ++ "result_" ++ stored_name file)) info /\
    outcome (analyze' request) =
    Ok {| status_code := 200;
          body := HtmlBody
                    (success_page json_dumps label info
                       (Some ("/uploads/" ++ "result_" ++ stored_name file))
                       document) |} /\
    calls (analyze' request) =
    ([File_save (stored_path file); Path_exists (stored_path file)]
     ++ calls (classify_with_gemini cfg env (stored_path file))
     ++ annotation_calls (stored_path file) (stored_name file) label h w tw th)%list.
Proof.
  intros Hup Hlabel Hsignal Himport Hread Hrect Hsize Hrect' Hput Hwrite.
  unfold classified_as in Hlabel.
  destruct (classify_with_gemini cfg env (stored_path file))
    as [r called] eqn:Hcl.
  cbn [outcome fst] in Hlabel. subst r.
  destruct (analyze_stored_run request file label called Hup Hcl)
    as [info [Hinfo Hrun]].
  rewrite Hsignal in Hrun.
  pose proof (annotate_succeeds env (stored_path file) (stored_name file) label
                h w tw th baseline Himport Hread Hrect Hsize Hrect' Hput Hwrite)
    as Hok.
  destruct (annotate_run env (stored_path file) (stored_name file) label)
    as [[[e He] | [h' [w' [tw' [th' [bl' [Hread' [Hsize' Hann]]]]]]]] _].
  { rewrite He in Hok. discriminate Hok. }
  rewrite Hread in Hread'. injection Hread' as <- <-.
  rewrite Hsize in Hsize'. injection Hsize' as <- <- <-.
  unfold annotation_result in Hrun. rewrite Hann in Hrun.
  cbn [outcome calls fst snd] in Hrun.
  exists info. eexists. split; [ exact Hinfo | ]. split; [ reflexivity | ].
  rewrite Hrun. split; reflexivity.
Qed.

(** X15.  The success page carries the classifier's label, the four
    fields of the interpreted record, the advice joined by "<br>" and the
    dump of the document, each as it is, without any escaping. *)
Theorem success_page_carries_fields (request : Request) (file : FileStorage)
    (label : string) :
  upload_stored splitext_ext env request file ->
  classified_as splitext_ext cfg env file label ->
  no_plant_signal label = false ->
  exists info html,
    get_disease_info (gemini_ready cfg) label = Ok info /\
    outcome (analyze' request) =
      Ok {| status_code := 200; body := HtmlBody html |} /\
    occurs_in label html /\
    occurs_in (plant_type info) html /\
    occurs_in (disease_name info) html /\
    occurs_in (severity_level info) html /\
    occurs_in (confidence info) html /\
    occurs_in (String.concat "<br>" (get_recommendations info)) html.
Proof.
  intros Hup Hlabel Hsignal.
  destruct (plant_branch json_dumps splitext_ext cfg env request file label
              Hup Hlabel Hsignal) as [info [Hinfo Hrun]].
  exists info. eexists. split; [ exact Hinfo | ]. split; [ exact Hrun | ].
  unfold success_page, disease_name_of.
  destruct (severity_class_of info) as [sc hc].
  split; [ do 3 apply occurs_in_app_l; apply occurs_in_head | ].
  split; [ do 5 apply occurs_in_app_l; apply occurs_in_head | ].
  split; [ do 7 apply occurs_in_app_l; apply occurs_in_head | ].
  split; [ do 11 apply occurs_in_app_l; apply occurs_in_head | ].
  split; [ do 13 apply occurs_in_app_l; apply occurs_in_head | ].
  do 17 apply occurs_in_app_l; apply occurs_in_head.
Qed.

(** X16.  In the no-plant branch the representation is negotiated: of two
    requests with the same upload, the one that asks for JSON gets the
    document as a JSON body and the other gets the no-plant page, which
    carries the label and the dump of the same document. *)
Theorem no_plant_negotiation (request_a request_b : Request)
    (file : FileStorage) (label : string) :
  files request_a = files request_b ->
  wants_json request_a = true ->
  wants_json request_b = false ->
  upload_stored splitext_ext env request_a file ->
  classified_as splitext_ext cfg env file label ->
  no_plant_signal label = true ->
  exists document html,
    outcome (analyze' request_a) =
      Ok {| status_code := 200; body := JsonBody document |} /\
    outcome (analyze' request_b) =
      Ok {| status_code := 200; body := HtmlBody html |} /\
    dict_get "message" document = Some (JStr label) /\
    occurs_in label html /\
    occurs_in (json_dumps document) html.
Proof.
  intros Hfiles Ha Hb Hup Hlabel Hsignal.
  assert (Hup' : upload_stored splitext_ext env request_b file).
  { destruct Hup as [Hfile Hrest]. split; [ now rewrite <- Hfiles | exact Hrest ]. }
  destruct (no_plant_branch json_dumps splitext_ext cfg env request_a file label
              Hup Hlabel Hsignal) as [info [Hinfo Hrun]].
  destruct (no_plant_branch json_dumps splitext_ext cfg env request_b file label
              Hup' Hlabel Hsignal) as [info' [Hinfo' Hrun']].
  rewrite Hinfo in Hinfo'. injection Hinfo' as <-.
  rewrite Ha in Hrun. rewrite Hb in Hrun'.
  do 2 eexists. split; [ exact Hrun | ]. split; [ exact Hrun' | ].
  split; [ reflexivity | ]. split.
  - unfold no_plant_page. apply occurs_in_app_l, occurs_in_head.
  - apply no_plant_page_carries.
Qed.

(** X17.  When the classifier is not configured, no request makes the
    route open the image with PIL or call the model. *)
Theorem unconfigured_never_classifies (request : Request) :
  gemini_ready cfg = false ->
  Forall (fun ev => classifier_event ev = false) (calls (analyze' request)).
Proof.
  intros Hready.
  destruct (analyze_cases request)
    as [[Hnone ->]
       | [file [Hfile [[Hname ->]
                      | [Hname [[e [Hsave ->]]
                               | [[Hsave [Hexists ->]]
                                 | [Hup [label [called [info [Hcl [_ ->]]]]]]]]]]]]];
    cbn [calls snd]; try (repeat constructor; fail).
  unfold classify_with_gemini in Hcl. rewrite Hready in Hcl.
  injection Hcl as <- <-.
  change (no_plant_signal "unknown") with false. cbv iota. cbn [app].
  do 2 (constructor; [ reflexivity | ]).
  destruct (annotate_run env (stored_path file) (stored_name file) "unknown")
    as [_ Hcv].
  eapply Forall_impl; [ | exact Hcv ]. intros ev [_ H]. exact H.
Qed.

End RouteRuns.

(** ** The further properties on concrete requests *)

Lemma unsaved_upload_is_server_error_witness :
  outcome (analyze dumps_braces ext_after_dot configured env_file_lost
             request_plain) =
  Ok {| status_code := 500;
        body := JsonBody (JDict [("error", JStr "Failed to save uploaded file")]) |}.
Proof.
  rewrite (unsaved_upload_is_server_error dumps_braces ext_after_dot configured
             env_file_lost request_plain leaf_file);
    [ reflexivity | reflexivity | discriminate | reflexivity | reflexivity ].
Defined.

Lemma failed_save_is_reported_witness :
  outcome (analyze dumps_braces ext_after_dot configured env_disk_full
             request_plain) =
  Ok {| status_code := 500;
        body := JsonBody
                  (JDict [ ("error", JStr "Internal server error");
                           ("detail", JStr "[Errno 28] No space left on device") ]) |}.
Proof.
  rewrite (failed_save_is_reported dumps_braces ext_after_dot configured
             env_disk_full request_plain leaf_file
             "[Errno 28] No space left on device");
    [ reflexivity | reflexivity | discriminate | reflexivity ].
Defined.

Lemma blank_key_answers_unknown_witness :
  outcome (analyze dumps_braces ext_after_dot unconfigured
             (env_answering (Some "Tomato : Late_blight")) request_plain) =
  Ok (success_response dumps_braces "unknown" (uninterpreted "unknown")
        (Some "/uploads/result_0b0e7a52-1f7c-4c58-9d1e-6a3f1c2d4e5f.jpg")
        [inset_detection 480 640 "unknown"]).
Proof.
  destruct (blank_key_answers_unknown dumps_braces ext_after_dot unconfigured
              (env_answering (Some "Tomato : Late_blight")) request_plain
              leaf_file) as [Hrun _].
  - reflexivity.
  - apply (leaf_upload_stored (Some "Tomato : Late_blight") request_plain).
    reflexivity.
  - rewrite Hrun. reflexivity.
Defined.

Lemma no_plant_branch_draws_nothing_witness :
  calls (analyze dumps_braces ext_after_dot configured
           (env_answering (Some no_plant_sentence)) request_plain) =
  [ File_save "uploads/0b0e7a52-1f7c-4c58-9d1e-6a3f1c2d4e5f.jpg";
    Path_exists "uploads/0b0e7a52-1f7c-4c58-9d1e-6a3f1c2d4e5f.jpg";
    PIL_open "uploads/0b0e7a52-1f7c-4c58-9d1e-6a3f1c2d4e5f.jpg";
    Gemini_generate_content "uploads/0b0e7a52-1f7c-4c58-9d1e-6a3f1c2d4e5f.jpg" ].
Proof.
  destruct (no_plant_branch_draws_nothing dumps_braces ext_after_dot configured
              (env_answering (Some no_plant_sentence)) request_plain leaf_file
              no_plant_sentence) as [Hcalls _].
  - apply (leaf_upload_stored (Some no_plant_sentence) request_plain).
    reflexivity.
  - reflexivity.
  - reflexivity.
  - rewrite Hcalls. reflexivity.
Defined.

Lemma plant_pipeline_witness :
  calls (analyze dumps_braces ext_after_dot configured
           (env_answering (Some "Tomato : Late_blight")) request_plain) =
  ([ File_save "uploads/0b0e7a52-1f7c-4c58-9d1e-6a3f1c2d4e5f.jpg";
     Path_exists "uploads/0b0e7a52-1f7c-4c58-9d1e-6a3f1c2d4e5f.jpg";
     PIL_open "uploads/0b0e7a52-1f7c-4c58-9d1e-6a3f1c2d4e5f.jpg";
     Gemini_generate_content "uploads/0b0e7a52-1f7c-4c58-9d1e-6a3f1c2d4e5f.jpg" ]
   ++ annotation_calls "uploads/0b0e7a52-1f7c-4c58-9d1e-6a3f1c2d4e5f.jpg"
        "0b0e7a52-1f7c-4c58-9d1e-6a3f1c2d4e5f.jpg" "Tomato : Late_blight"
        480 640 210 18)%list.
Proof.
  destruct (plant_pipeline dumps_braces ext_after_dot configured
              (env_answering (Some "Tomato : Late_blight")) request_plain
              leaf_file "Tomato : Late_blight" 480 640 210 18 6)
    as [info [document [_ [_ [_ Hcalls]]]]].
  - apply (leaf_upload_stored (Some "Tomato : Late_blight") request_plain).
    reflexivity.
  - reflexivity.
  - reflexivity.
  - reflexivity.
  - reflexivity.
  - reflexivity.
  - reflexivity.
  - reflexivity.
  - reflexivity.
  - reflexivity.
  - rewrite Hcalls. reflexivity.
Defined.

Lemma success_page_carries_fields_witness :
  exists html,
    outcome (analyze dumps_braces ext_after_dot configured
               (env_answering (Some "Tomato : <b>Late_blight</b>"))
               request_plain) =
      Ok {| status_code := 200; body := HtmlBody html |} /\
    occurs_in "Tomato : <b>Late_blight</b>" html.
Proof.
  destruct (success_page_carries_fields dumps_braces ext_after_dot configured
              (env_answering (Some "Tomato : <b>Late_blight</b>")) request_plain
              leaf_file "Tomato : <b>Late_blight</b>")
    as [info [html [_ [Hrun [Hlabel _]]]]].
  - apply (leaf_upload_stored (Some "Tomato : <b>Late_blight</b>") request_plain).
    reflexivity.
  - reflexivity.
  - reflexivity.
  - exists html. split; [ exact Hrun | exact Hlabel ].
Defined.

Lemma no_plant_negotiation_witness :
  exists document html,
    outcome (analyze dumps_braces ext_after_dot configured
               (env_answering (Some no_plant_sentence)) request_json) =
      Ok {| status_code := 200; body := JsonBody document |} /\
    outcome (analyze dumps_braces ext_after_dot configured
               (env_answering (Some no_plant_sentence)) request_plain) =
      Ok {| status_code := 200; body := HtmlBody html |} /\
    occurs_in (dumps_braces document) html.
Proof.
  destruct (no_plant_negotiation dumps_braces ext_after_dot configured
              (env_answering (Some no_plant_sentence)) request_json
              request_plain leaf_file no_plant_sentence)
    as [document [html [Ha [Hb [_ [_ Hdump]]]]]]; try reflexivity.
  - apply (leaf_upload_stored (Some no_plant_sentence) request_json).
    reflexivity.
  - exists document, html. auto.
Defined.

Lemma unconfigured_never_classifies_witness :
  Forall (fun ev => classifier_event ev = false)
         (calls (analyze dumps_braces ext_after_dot unconfigured
                   (env_answering (Some "Tomato : Late_blight")) request_plain)).
Proof.
  apply (unconfigured_never_classifies dumps_braces ext_after_dot unconfigured
           (env_answering (Some "Tomato : Late_blight")) request_plain).
  reflexivity.
Defined.

(** ** Stored names and normal forms *)

Lemma contains_char_cons (ch c : ascii) (s : string) :
  PyStr.contains (String ch "") (String c s) =
  Ascii.eqb c ch || PyStr.contains (String ch "") s.
Proof.
  cbn [PyStr.contains prefix]. destruct (ascii_dec ch c) as [<- | Hne].
  - rewrite Ascii.eqb_refl. now destruct s.
  - destruct (Ascii.eqb_spec c ch); [ congruence | reflexivity ].
Qed.

Lemma contains_char_append (ch : ascii) (x y : string) :
  PyStr.contains (String ch "") (x ++ y) =
  PyStr.contains (String ch "") x || PyStr.contains (String ch "") y.
Proof.
  induction x as [ | c x IH].
  - reflexivity.
  - cbn [append]. rewrite !contains_char_cons, IH. apply orb_assoc.
Qed.

(** X18.  When neither the generated identifier nor the extension taken
    from the client's file name holds a slash, the upload is stored directly
    in the upload folder under the identifier followed by that extension
    (".jpg" when there is none), and the annotated copy beside it: the rest
    of the client's file name plays no part in either path. *)
Theorem stored_paths_stay_in_upload_folder (splitext_ext : string -> string)
    (env : Env) (file : FileStorage) :
  ~ occurs_in "/" (uuid4 env) ->
  ~ occurs_in "/" (splitext_ext (filename file)) ->
  exists extension,
    (extension = splitext_ext (filename file) /\ extension <> "" \/
     extension = ".jpg" /\ splitext_ext (filename file) = "") /\
    unique_filename_of splitext_ext env file = uuid4 env ++ extension /\
    ~ occurs_in "/" (unique_filename_of splitext_ext env file) /\
    filepath_of splitext_ext env file = "uploads/" ++ uuid4 env ++ extension /\
    os_path_join UPLOAD_FOLDER
      ("result_" ++ unique_filename_of splitext_ext env file)
    = "uploads/result_" ++ uuid4 env ++ extension.
Proof.
  intros Huuid Hext. apply contains_absent in Huuid, Hext.
  unfold filepath_of, unique_filename_of, str_or.
  set (ext := splitext_ext (filename file)) in *.
  exists (if ext =? "" then ".jpg" else ext).
  assert (Hname : PyStr.contains "/"
                    (uuid4 env ++ (if ext =? "" then ".jpg" else ext)) = false).
  { rewrite contains_char_append, Huuid.
    destruct (ext =? ""); [ reflexivity | exact Hext ]. }
  split.
  { destruct (String.eqb_spec ext ""); [ right | left ]; split; congruence. }
  split; [ reflexivity | ].
  split; [ now apply contains_absent | ].
  generalize dependent (uuid4 env ++ (if ext =? "" then ".jpg" else ext)).
  intros name Hname. split.
  - unfold os_path_join, UPLOAD_FOLDER.
    destruct (prefix "/" name) eqn:Hp; [ | reflexivity ].
    apply prefix_app in Hp as [post ->]. cbn [append] in Hname.
    rewrite contains_char_cons in Hname. discriminate Hname.
  - reflexivity.
Qed.

Lemma stored_paths_stay_in_upload_folder_witness :
  filepath_of last_extension (env_answering None) traversal_file
  = "uploads/0b0e7a52-1f7c-4c58-9d1e-6a3f1c2d4e5f.png".
Proof.
  destruct (stored_paths_stay_in_upload_folder last_extension
              (env_answering None) traversal_file)
    as [extension [Hext [_ [_ [Hpath _]]]]].
  - apply contains_absent. reflexivity.
  - apply contains_absent. reflexivity.
  - rewrite Hpath. destruct Hext as [[-> _] | [_ H]]; [ reflexivity | ].
    vm_compute in H. discriminate H.
Defined.

Lemma strip_padded (l t r : string) :
  all_space l = true -> all_space r = true ->
  head_space t = false -> last_space t = false ->
  PyStr.strip (l ++ t ++ r) = t.
Proof.
  intros Hl Hr Hh Hlast. symmetry. apply trimmed_unique.
  exists l, r. repeat split; assumption.
Qed.

(** X19.  Interpretation is idempotent on labels with a colon: writing the
    interpreted plant and disease back as "<plant> : <disease>" and
    interpreting that label gives the same record. *)
Theorem interpreter_idempotent (ready : bool) (s : string) :
  occurs_in ":" s ->
  exists info,
    get_disease_info ready s = Ok info /\
    get_disease_info ready (plant_type info ++ " : " ++ disease_name info)
    = Ok info.
Proof.
  intros Hs. apply contains_occurs in Hs.
  destruct (first_colon s Hs) as [a [b [-> Ha]]].
  rewrite (get_disease_info_at_colon ready a b Ha).
  eexists. split; [ reflexivity | ]. cbn [plant_type disease_name].
  destruct (strip_trimmed a) as [la [ra [Ea [_ [_ [Hha Hla]]]]]].
  destruct (strip_trimmed b) as [lb [rb [_ [_ [_ [Hhb Hlb]]]]]].
  assert (Hcolon : PyStr.contains ":" (PyStr.strip a ++ " ") = false).
  { rewrite Ea in Ha. rewrite !contains_colon_append in Ha.
    apply orb_false_iff in Ha as [_ Ha]. apply orb_false_iff in Ha as [Ha _].
    now rewrite contains_colon_append, Ha. }
  replace (PyStr.strip a ++ " : " ++ PyStr.strip b)
    with ((PyStr.strip a ++ " ") ++ ":" ++ (" " ++ PyStr.strip b))
    by (now rewrite append_assoc).
  rewrite (get_disease_info_at_colon ready _ _ Hcolon).
  assert (Eplant : PyStr.strip (PyStr.strip a ++ " ") = PyStr.strip a).
  { apply (strip_padded "" (PyStr.strip a) " "); auto. }
  assert (Edisease : PyStr.strip (" " ++ PyStr.strip b) = PyStr.strip b).
  { rewrite <- (append_empty_r (PyStr.strip b)) at 1.
    apply (strip_padded " " (PyStr.strip b) ""); auto. }
  now rewrite Eplant, Edisease.
Qed.

Lemma interpreter_idempotent_witness :
  exists info,
    get_disease_info true "  Tomato:Late_blight : stem " = Ok info /\
    get_disease_info true "Tomato : Late_blight : stem" = Ok info.
Proof.
  destruct (interpreter_idempotent true "  Tomato:Late_blight : stem ")
    as [info [Hinfo Hagain]].
  - now exists "  Tomato", "Late_blight : stem ".
  - exists info. split; [ exact Hinfo | ].
    vm_compute in Hinfo. injection Hinfo as <-. exact Hagain.
Defined.
